(** * The API-access layer of the analytics dashboard front-end

    Shallow embedding of the three versions of [frontend/lib/api.ts] found
    in the repository:
    - [Part000] (src/unnamed/part_000): axios client with a 10 s timeout and
      a response interceptor whose mock table covers dashboard-summary,
      customer-segments and revenue;
    - [Part001] (src/unnamed/part_001): axios client without timeout and
      without interceptor; every fetch function returns [response.data];
    - [Part002] (src/unnamed/part_002): like [Part000], with a mock table
      without the revenue entry;
    - [Callers]: how two list components (part_006 and
      frontend/app/products/components/ProductDetails.tsx) pass their filter.

    The axios library itself is modelled in [Axios]: dispatch of a request
    over an abstract transport, the timeout, [validateStatus], the response
    interceptor chain, and the query-string serialisation of [buildURL]. *)

From Stdlib Require Import String Ascii ZArith QArith Qround List Bool Lia Lqa.
From Stdlib Require Import Numbers.DecimalString.
Import ListNotations.

Open Scope string_scope.
Set Warnings "-register-all".

(** ** JavaScript values *)

Inductive jsval : Type :=
| JUndefined
| JNull
| JBool (b : bool)
| JNum (q : Q)
| JStr (s : string)
| JArr (xs : list jsval)
| JObj (fields : list (string * jsval)).

Definition num_Z (z : Z) : jsval := JNum (inject_Z z).

(** Property read [o.k]: the first field with that key, [undefined] if none. *)
Fixpoint lookup_field (k : string) (fs : list (string * jsval)) : jsval :=
  match fs with
  | [] => JUndefined
  | (k', v) :: fs' => if String.eqb k k' then v else lookup_field k fs'
  end.

Definition prop (v : jsval) (k : string) : jsval :=
  match v with
  | JObj fs => lookup_field k fs
  | _ => JUndefined
  end.

(** [JSON.stringify] drops object properties whose value is [undefined]
    and writes [undefined] array elements as [null]; this is the body the
    server receives. *)
Fixpoint json_normalize (v : jsval) : jsval :=
  match v with
  | JArr xs =>
      JArr ((fix go (xs : list jsval) : list jsval :=
               match xs with
               | [] => []
               | JUndefined :: xs' => JNull :: go xs'
               | x :: xs' => json_normalize x :: go xs'
               end) xs)
  | JObj fs =>
      JObj ((fix go (fs : list (string * jsval)) : list (string * jsval) :=
               match fs with
               | [] => []
               | (_, JUndefined) :: fs' => go fs'
               | (k, x) :: fs' => (k, json_normalize x) :: go fs'
               end) fs)
  | _ => v
  end.

(** JavaScript truthiness of an optional string argument ([undefined] or a
    string): [undefined] and [""] are falsy. *)
Definition truthy_str (s : option string) : bool :=
  match s with
  | None => false
  | Some EmptyString => false
  | Some _ => true
  end.

(** Default parameter [x = d]: applies when the argument is [undefined]. *)
Definition default {A} (d : A) (x : option A) : A :=
  match x with Some a => a | None => d end.

(** ** Strings *)

Fixpoint starts_with (p s : string) : bool :=
  match p, s with
  | EmptyString, _ => true
  | String a p', String b s' => Ascii.eqb a b && starts_with p' s'
  | String _ _, EmptyString => false
  end.

(** [s.includes(p)] *)
Fixpoint includes (s p : string) : bool :=
  starts_with p s ||
  match s with
  | EmptyString => false
  | String _ s' => includes s' p
  end.

(** [String(n)] for an integral number. *)
Definition string_of_Z (z : Z) : string :=
  NilEmpty.string_of_int (Z.to_int z).

Fixpoint join (sep : string) (xs : list string) : string :=
  match xs with
  | [] => ""
  | [x] => x
  | x :: xs' => x ++ sep ++ join sep xs'
  end.

(** The part of [s] before the first [c], and what follows it if [c]
    occurs. *)
Fixpoint break_at (c : ascii) (s : string) : string * option string :=
  match s with
  | EmptyString => (EmptyString, None)
  | String a s' =>
      if Ascii.eqb a c then (EmptyString, Some s')
      else let (x, r) := break_at c s' in (String a x, r)
  end.

(** [s.split(c)] *)
Fixpoint split_on (c : ascii) (s : string) : list string :=
  match s with
  | EmptyString => [EmptyString]
  | String a s' =>
      if Ascii.eqb a c then EmptyString :: split_on c s'
      else match split_on c s' with
           | x :: xs => String a x :: xs
           | [] => [String a EmptyString]
           end
  end.

(** ** Percent-encoding *)

Definition in_set (cs : string) (a : ascii) : bool :=
  includes cs (String a EmptyString).

Definition is_alnum (a : ascii) : bool :=
  let n := nat_of_ascii a in
  (Nat.leb 48 n && Nat.leb n 57) || (Nat.leb 65 n && Nat.leb n 90)
  || (Nat.leb 97 n && Nat.leb n 122).

Definition hex_digit (n : nat) : ascii :=
  ascii_of_nat (if Nat.ltb n 10 then 48 + n else 55 + n)%nat.

Definition hex_val (a : ascii) : option nat :=
  let n := nat_of_ascii a in
  if Nat.leb 48 n && Nat.leb n 57 then Some (n - 48)%nat
  else if Nat.leb 65 n && Nat.leb n 70 then Some (n - 55)%nat
  else if Nat.leb 97 n && Nat.leb n 102 then Some (n - 87)%nat
  else None.

(** One byte as [%XY] with upper-case hex digits. *)
Definition percent (a : ascii) : string :=
  let n := nat_of_ascii a in
  String "%" (String (hex_digit (n / 16)%nat) (String (hex_digit (n mod 16)%nat) EmptyString)).

(** [URLSearchParams.prototype.toString] uses the
    application/x-www-form-urlencoded byte serializer: alphanumerics and
    [*-._] are kept, space becomes [+], every other byte is percent-encoded.
    Strings are byte strings (UTF-8). *)
Definition form_encode_char (a : ascii) : string :=
  if is_alnum a || in_set "*-._" a then String a EmptyString
  else if Ascii.eqb a " " then "+"
  else percent a.

Fixpoint form_encode (s : string) : string :=
  match s with
  | EmptyString => EmptyString
  | String a s' => form_encode_char a ++ form_encode s'
  end.

(** axios' [buildURL] encoder: [encodeURIComponent] (keeps alphanumerics and
    [-_.!~*'()]) followed by the replacements of [%3A], [%24], [%2C], [%5B],
    [%5D] by [:$,[]] and of [%20] by [+]. *)
Definition axios_encode_char (a : ascii) : string :=
  if is_alnum a || in_set "-_.!~*'()" a || in_set ":$,[]" a then String a EmptyString
  else if Ascii.eqb a " " then "+"
  else percent a.

Fixpoint axios_encode (s : string) : string :=
  match s with
  | EmptyString => EmptyString
  | String a s' => axios_encode_char a ++ axios_encode s'
  end.

(** Form decoding as a server reads a query string: [+] is a space, [%XY]
    a byte, a malformed escape is kept as it is. *)
Fixpoint form_decode (s : string) : string :=
  match s with
  | EmptyString => EmptyString
  | String a s' =>
      if Ascii.eqb a "+" then String " " (form_decode s')
      else if Ascii.eqb a "%" then
        match s' with
        | String h1 (String h2 s'') =>
            match hex_val h1, hex_val h2 with
            | Some x, Some y => String (ascii_of_nat (x * 16 + y)%nat) (form_decode s'')
            | _, _ => String a (form_decode s')
            end
        | _ => String a (form_decode s')
        end
      else String a (form_decode s')
  end.

Definition parse_pair (seg : string) : string * string :=
  match break_at "=" seg with
  | (k, None) => (form_decode k, EmptyString)
  | (k, Some v) => (form_decode k, form_decode v)
  end.

(** The decoded name/value pairs of a query string. *)
Definition parse_query (q : string) : list (string * string) :=
  match q with
  | EmptyString => []
  | _ => map parse_pair (split_on "&" q)
  end.

(** [new URLSearchParams(...).toString()] *)
Definition usp_to_string (ps : list (string * string)) : string :=
  join "&" (map (fun '(k, v) => form_encode k ++ "=" ++ form_encode v) ps).

(** ** Dates *)

Open Scope Z_scope.

(** A [Date] object holds a time value in milliseconds since the epoch,
    or NaN ([None]) for an invalid date. *)
Record Date := mkDate { date_tv : option Z }.

Definition ms_per_day : Z := 86400000.
Definition max_time_value : Z := 8640000000000000.

(** [TimeClip] *)
Definition time_clip (t : Z) : option Z :=
  if Z.abs t <=? max_time_value then Some t else None.

(** Proleptic Gregorian (year, month, day) of a day number. *)
Definition civil_from_days (days : Z) : Z * Z * Z :=
  let z := days + 719468 in
  let era := z / 146097 in
  let doe := z - era * 146097 in
  let yoe := (doe - doe / 1460 + doe / 36524 - doe / 146096) / 365 in
  let doy := doe - (365 * yoe + yoe / 4 - yoe / 100) in
  let mp := (5 * doy + 2) / 153 in
  let d := doy - (153 * mp + 2) / 5 + 1 in
  let m := if mp <? 10 then mp + 3 else mp - 9 in
  let y := yoe + era * 400 in
  ((if m <=? 2 then y + 1 else y), m, d)%Z.

Fixpoint zeros (n : nat) : string :=
  match n with O => EmptyString | S n' => String "0" (zeros n') end.

(** Non-negative [z] in decimal, left-padded with zeros to [n] digits. *)
Definition pad (n : nat) (z : Z) : string :=
  let s := string_of_Z z in zeros (n - String.length s)%nat ++ s.

Definition iso_year (y : Z) : string :=
  if (0 <=? y) && (y <=? 9999) then pad 4 y
  else (if y <? 0 then "-" else "+") ++ pad 6 (Z.abs y).

(** [Date.prototype.toISOString]: [YYYY-MM-DDTHH:mm:ss.sssZ] in UTC,
    extended six-digit years outside 0..9999; [None] is the [RangeError]
    thrown for an invalid date. *)
Definition toISOString (d : Date) : option string :=
  match date_tv d with
  | None => None
  | Some t =>
      let days := t / ms_per_day in
      let ms := t mod ms_per_day in
      let '(y, m, dd) := civil_from_days days in
      Some (iso_year y ++ "-" ++ pad 2 m ++ "-" ++ pad 2 dd ++ "T"
            ++ pad 2 (ms / 3600000) ++ ":" ++ pad 2 (ms / 60000 mod 60) ++ ":"
            ++ pad 2 (ms / 1000 mod 60) ++ "." ++ pad 3 (ms mod 1000) ++ "Z")
  end%Z.

(** ** The axios library *)

Module Axios.

Inductive method := GET | POST.

(** A [params] value of the source: a number argument or a string. *)
Inductive pval := PNum (z : Z) | PStr (s : string).

Definition pval_to_string (p : pval) : string :=
  match p with PNum z => string_of_Z z | PStr s => s end.

(** The per-request config an axios call builds: [method], [url] (as passed
    to [api.get] / [api.post]), [params] and [data]. *)
Record request := mkRequest {
  req_method : method;
  req_url : string;
  req_params : list (string * pval);
  req_data : jsval }.

(** Instance defaults of [axios.create]; [cfg_timeout = 0] is axios' default,
    no timeout. *)
Record client_config := mkConfig {
  cfg_baseURL : string;
  cfg_headers : list (string * string);
  cfg_timeout : Z }.

Record http_response := mkResponse { res_status : Z; res_data : jsval }.

(** What the request meets on the network: an answer after some latency,
    no answer at all, or a transport failure with its error code. *)
Inductive transport_result :=
| TRespond (latency_ms : Z) (r : http_response)
| TNoAnswer
| TFail (code : option string).

(** What the server sees: method, path, decoded query and JSON body. *)
Record wire := mkWire {
  w_method : method;
  w_path : string;
  w_query : list (string * string);
  w_body : jsval }.

Definition world := wire -> transport_result.

Inductive js_error :=
| AxiosError (code : option string) (config : request) (response : option http_response)
| RangeError
| TypeError.

(** A settled or forever pending promise. *)
Inductive outcome (A : Type) :=
| Resolved (a : A)
| Rejected (e : js_error)
| Pending.
Arguments Resolved {A} a.
Arguments Rejected {A} e.
Arguments Pending {A}.

Definition bind {A B} (m : outcome A) (k : A -> outcome B) : outcome B :=
  match m with
  | Resolved a => k a
  | Rejected e => Rejected e
  | Pending => Pending
  end.

Notation "x <- m ;; k" := (bind m (fun x => k))
  (at level 61, m at next level, right associativity).

(** [AxiosURLSearchParams.toString(encode)] over the [params] object. *)
Definition serialize_params (ps : list (string * pval)) : string :=
  join "&" (map (fun '(k, v) => axios_encode k ++ "=" ++ axios_encode (pval_to_string v)) ps).

(** [buildURL(url, params)] *)
Definition build_url (url : string) (ps : list (string * pval)) : string :=
  match serialize_params ps with
  | EmptyString => url
  | sp => url ++ (if includes url "?" then "&" else "?") ++ sp
  end.

Definition eff_url (req : request) : string :=
  build_url (req_url req) (req_params req).

(** Path of the outgoing URL, relative to the instance's [baseURL]. *)
Definition eff_path (req : request) : string := fst (break_at "?" (eff_url req)).

(** Decoded query parameters of the outgoing URL. *)
Definition eff_query (req : request) : list (string * string) :=
  match snd (break_at "?" (eff_url req)) with
  | None => []
  | Some q => parse_query q
  end.

Definition to_wire (req : request) : wire :=
  mkWire (req_method req) (eff_path req) (eff_query req) (json_normalize (req_data req)).

(** Default [validateStatus]. *)
Definition validate_status (s : Z) : bool := (200 <=? s) && (s <? 300).

(** [settle]: [[ERR_BAD_REQUEST, ERR_BAD_RESPONSE][Math.floor(status/100) - 4]]. *)
Definition status_error_code (s : Z) : option string :=
  match s / 100 - 4 with
  | 0 => Some "ERR_BAD_REQUEST"
  | 1 => Some "ERR_BAD_RESPONSE"
  | _ => None
  end.

Definition timeout_error (req : request) : js_error :=
  AxiosError (Some "ECONNABORTED") req None.

(** The adapter: timeout (when [timeout > 0]), status validation,
    transport errors. *)
Definition dispatch (cfg : client_config) (req : request) (tr : transport_result)
  : outcome http_response :=
  match tr with
  | TRespond lat r =>
      if (0 <? cfg_timeout cfg) && (cfg_timeout cfg <? lat) then Rejected (timeout_error req)
      else if validate_status (res_status r) then Resolved r
      else Rejected (AxiosError (status_error_code (res_status r)) req (Some r))
  | TNoAnswer =>
      if 0 <? cfg_timeout cfg then Rejected (timeout_error req) else Pending
  | TFail c => Rejected (AxiosError c req None)
  end.

(** What an axios call resolves with: the response object, or whatever a
    response interceptor replaced it with. *)
Inductive value := VResp (r : http_response) | VJs (v : jsval).

(** [x.data] *)
Definition dot_data (v : value) : value :=
  match v with
  | VResp r => VJs (res_data r)
  | VJs j => VJs (prop j "data")
  end.

Record interceptor := mkInterceptor {
  on_fulfilled : value -> outcome value;
  on_rejected : js_error -> outcome value }.

Record instance := mkInstance {
  inst_config : client_config;
  inst_response_interceptors : list interceptor }.

(** [promise.then(fulfilled, rejected)] *)
Definition chain (o : outcome value) (i : interceptor) : outcome value :=
  match o with
  | Resolved v => on_fulfilled i v
  | Rejected e => on_rejected i e
  | Pending => Pending
  end.

Definition send (inst : instance) (w : world) (req : request) : outcome value :=
  let raw := match dispatch (inst_config inst) req (w (to_wire req)) with
             | Resolved r => Resolved (VResp r)
             | Rejected e => Rejected e
             | Pending => Pending
             end in
  fold_left chain (inst_response_interceptors inst) raw.

(** [instance.get(url, { params })] *)
Definition get (inst : instance) (w : world) (url : string) (ps : list (string * pval))
  : outcome value :=
  send inst w (mkRequest GET url ps JUndefined).

(** [instance.post(url, data)] *)
Definition post (inst : instance) (w : world) (url : string) (data : jsval)
  : outcome value :=
  send inst w (mkRequest POST url [] data).

End Axios.

(** ** Environment of a run *)

(** [process.env.NEXT_PUBLIC_API_URL], the clock ([Date.now()], in ms) and
    the successive results of [Math.random()]. *)
Record env := mkEnv {
  env_api_url : option string;
  env_now : Z;
  env_random : nat -> Q }.

(** [process.env.NEXT_PUBLIC_API_URL || 'http://localhost:8000/api/v1'] *)
Definition API_BASE_URL (e : env) : string :=
  match env_api_url e with
  | Some u => if truthy_str (Some u) then u else "http://localhost:8000/api/v1"
  | None => "http://localhost:8000/api/v1"
  end.

(** [if (x) params.k = x] / [if (x) params.append(k, x)] for an optional
    string filter. *)
Definition filter_param {A} (k : string) (mk : string -> A) (x : option string)
  : list (string * A) :=
  if truthy_str x then match x with Some s => [(k, mk s)] | None => [] end else [].

(** [x?.toISOString()]: [undefined] for an omitted date. *)
Definition opt_iso (d : option Date) : Axios.outcome jsval :=
  match d with
  | None => Axios.Resolved JUndefined
  | Some d' =>
      match toISOString d' with
      | Some s => Axios.Resolved (JStr s)
      | None => Axios.Rejected Axios.RangeError
      end
  end.

(** The body of [fetchRecommendations], the same in the three variants:
    [{ customer_id: customerId, algorithm, limit, include_explanation:
    includeExplanation }] with the defaults ['hybrid'], [10], [false]. *)
Definition recommendations_body (customerId : string) (algorithm : option string)
  (limit : option Z) (includeExplanation : option bool) : jsval :=
  JObj [("customer_id", JStr customerId);
        ("algorithm", JStr (default "hybrid" algorithm));
        ("limit", num_Z (default 10 limit));
        ("include_explanation", JBool (default false includeExplanation))].

(** ** The response interceptor shared by part_000 and part_002 *)

Module Fallback.
Import Axios.

(** [error.code === 'ECONNREFUSED' || error.code === 'ERR_NETWORK'] *)
Definition masked_code (c : option string) : bool :=
  match c with
  | Some s => String.eqb s "ECONNREFUSED" || String.eqb s "ERR_NETWORK"
  | None => false
  end.

(** [error.code]: set on axios errors only. *)
Definition error_code (err : js_error) : option string :=
  match err with
  | AxiosError c _ _ => c
  | _ => None
  end.

Definition is_masked (err : js_error) : bool := masked_code (error_code err).

(** [api.interceptors.response.use(response => response.data, error => ...)]
    for a given [getMockData]; the [console] output is not modelled. *)
Definition fallback_interceptor (getMockData : string -> outcome jsval) : interceptor :=
  mkInterceptor
    (fun r => Resolved (dot_data r))
    (fun err =>
       if is_masked err then
         match err with
         | AxiosError _ cfg _ => v <- getMockData (req_url cfg) ;; Resolved (VJs v)
         | _ => Rejected err
         end
       else Rejected err).

Definition json_headers : list (string * string) := [("Content-Type", "application/json")].

(** The two literal mock payloads common to part_000 and part_002. *)
Definition mock_dashboard_summary : jsval :=
  JObj [("total_customers", num_Z 12543);
        ("total_products", num_Z 3421);
        ("total_purchases", num_Z 45632);
        ("total_revenue", num_Z 2456789);
        ("revenue_30d", num_Z 245678);
        ("revenue_growth_30d", JNum (47 # 2));
        ("active_customers_30d", num_Z 3456);
        ("new_customers_30d", num_Z 234);
        ("database_status", JStr "operational")].

Definition mock_customer_segments : jsval :=
  JArr [JObj [("segment_name", JStr "Champions"); ("customer_count", num_Z 2450);
              ("percentage", JNum (49 # 2))];
        JObj [("segment_name", JStr "Loyal"); ("customer_count", num_Z 3200);
              ("percentage", num_Z 32)];
        JObj [("segment_name", JStr "Potential"); ("customer_count", num_Z 1800);
              ("percentage", num_Z 18)]].

End Fallback.

(** ** src/unnamed/part_000 *)

Module Part000.
Import Axios Fallback.

Definition api_config (e : env) : client_config :=
  mkConfig (API_BASE_URL e) json_headers 10000.

(** One iteration of the revenue loop: [new Date()], moved back
    [days - i] days by [setDate] (host time zone UTC), then two
    [Math.random()] calls, for [revenue] and for [orders]. *)
Definition revenue_day (e : env) (i : nat) : option jsval :=
  let date := mkDate (time_clip (env_now e - (30 - Z.of_nat i) * ms_per_day)) in
  match toISOString date with
  | None => None
  | Some iso =>
      Some (JObj [("date", JStr iso);
                  ("revenue", JNum (inject_Z 5000 + env_random e (2 * i) * inject_Z 3000
                                    + inject_Z (Z.of_nat i) * inject_Z 50)%Q);
                  ("orders", num_Z (Qfloor (inject_Z 50 + env_random e (2 * i + 1) * inject_Z 30
                                            + inject_Z (Z.of_nat i) * inject_Z 2)%Q))])
  end.

Fixpoint all_some {A} (xs : list (option A)) : option (list A) :=
  match xs with
  | [] => Some []
  | None :: _ => None
  | Some x :: xs' =>
      match all_some xs' with Some ys => Some (x :: ys) | None => None end
  end.

Definition getMockData (e : env) (url : string) : outcome jsval :=
  if includes url "dashboard-summary" then Resolved mock_dashboard_summary
  else if includes url "customer-segments" then Resolved mock_customer_segments
  else if includes url "revenue" then
    match all_some (map (revenue_day e) (seq 0 30)) with
    | Some data =>
        Resolved (JObj [("total_revenue", num_Z 234500);
                        ("order_count", num_Z 4567);
                        ("avg_order_value", JNum (5123 # 100));
                        ("growth_rate", JNum (47 # 2));
                        ("daily_revenue", JArr data)])
    | None => Rejected RangeError
    end
  else Resolved (JArr []).

Definition api (e : env) : instance :=
  mkInstance (api_config e) [fallback_interceptor (getMockData e)].

Definition fetchDashboardSummary (e : env) (w : world) : outcome value :=
  get (api e) w "/analytics/dashboard-summary" [].

Definition fetchCustomerSegments (e : env) (w : world) : outcome value :=
  get (api e) w "/analytics/customer-segments" [].

(** [params.start_date] / [params.end_date], set only for a given date. *)
Definition date_param (k : string) (d : option Date) : outcome (list (string * pval)) :=
  match d with
  | None => Resolved []
  | Some d' =>
      match toISOString d' with
      | Some s => Resolved [(k, PStr s)]
      | None => Rejected RangeError
      end
  end.

Definition revenue_params (startDate endDate : option Date)
  : outcome (list (string * pval)) :=
  s <- date_param "start_date" startDate ;;
  t <- date_param "end_date" endDate ;;
  Resolved (s ++ t)%list.

Definition fetchRevenueAnalytics (e : env) (w : world) (startDate endDate : option Date)
  : outcome value :=
  ps <- revenue_params startDate endDate ;;
  get (api e) w "/analytics/revenue" ps.

Definition products_request (limit offset : option Z) (category : option string) : request :=
  mkRequest GET "/products"
    ([("limit", PNum (default 50 limit)); ("offset", PNum (default 0 offset))]
     ++ filter_param "category" PStr category)%list JUndefined.

Definition fetchProducts (e : env) (w : world) (limit offset : option Z)
  (category : option string) : outcome value :=
  send (api e) w (products_request limit offset category).

Definition customers_request (limit offset : option Z) (segment : option string) : request :=
  mkRequest GET "/customers"
    ([("limit", PNum (default 50 limit)); ("offset", PNum (default 0 offset))]
     ++ filter_param "segment" PStr segment)%list JUndefined.

Definition fetchCustomers (e : env) (w : world) (limit offset : option Z)
  (segment : option string) : outcome value :=
  send (api e) w (customers_request limit offset segment).

Definition fetchRecommendations (e : env) (w : world) (customerId : string)
  (algorithm : option string) (limit : option Z) (includeExplanation : option bool)
  : outcome value :=
  post (api e) w "/recommendations"
    (recommendations_body customerId algorithm limit includeExplanation).

Definition checkHealth (e : env) (w : world) : outcome value :=
  get (api e) w "/health" [].

End Part000.

(** ** src/unnamed/part_001 *)

Module Part001.
Import Axios Fallback.

(** No [timeout] option: axios' default [0]. *)
Definition api_config (e : env) : client_config :=
  mkConfig (API_BASE_URL e) json_headers 0.

(** No interceptor. *)
Definition api (e : env) : instance := mkInstance (api_config e) [].

Definition fetchDashboardSummary (e : env) (w : world) : outcome value :=
  response <- get (api e) w "/analytics/dashboard-summary" [] ;;
  Resolved (dot_data response).

Definition fetchCustomerSegments (e : env) (w : world) : outcome value :=
  response <- get (api e) w "/analytics/customer-segments" [] ;;
  Resolved (dot_data response).

(** [{ start_date: startDate?.toISOString(), end_date: endDate?.toISOString() }] *)
Definition revenue_body (startDate endDate : option Date) : outcome jsval :=
  s <- opt_iso startDate ;;
  t <- opt_iso endDate ;;
  Resolved (JObj [("start_date", s); ("end_date", t)]).

Definition fetchRevenueAnalytics (e : env) (w : world) (startDate endDate : option Date)
  : outcome value :=
  body <- revenue_body startDate endDate ;;
  response <- post (api e) w "/analytics/revenue" body ;;
  Resolved (dot_data response).

Definition products_search (limit offset : option Z) (category : option string)
  : list (string * string) :=
  [("limit", string_of_Z (default 50 limit)); ("offset", string_of_Z (default 0 offset))]
  ++ filter_param "category" (fun s => s) category.

(** [api.get(`/products?${params}`)] *)
Definition products_request (limit offset : option Z) (category : option string) : request :=
  mkRequest GET ("/products?" ++ usp_to_string (products_search limit offset category)) [] JUndefined.

Definition fetchProducts (e : env) (w : world) (limit offset : option Z)
  (category : option string) : outcome value :=
  response <- send (api e) w (products_request limit offset category) ;;
  Resolved (dot_data response).

Definition customers_search (limit offset : option Z) (segment : option string)
  : list (string * string) :=
  [("limit", string_of_Z (default 50 limit)); ("offset", string_of_Z (default 0 offset))]
  ++ filter_param "segment" (fun s => s) segment.

Definition customers_request (limit offset : option Z) (segment : option string) : request :=
  mkRequest GET ("/customers?" ++ usp_to_string (customers_search limit offset segment)) [] JUndefined.

Definition fetchCustomers (e : env) (w : world) (limit offset : option Z)
  (segment : option string) : outcome value :=
  response <- send (api e) w (customers_request limit offset segment) ;;
  Resolved (dot_data response).

Definition popular_search (limit : option Z) (category : option string)
  : list (string * string) :=
  [("limit", string_of_Z (default 10 limit))] ++ filter_param "category" (fun s => s) category.

Definition popular_request (limit : option Z) (category : option string) : request :=
  mkRequest GET ("/recommendations/popular?" ++ usp_to_string (popular_search limit category))
    [] JUndefined.

Definition fetchPopularProducts (e : env) (w : world) (limit : option Z)
  (category : option string) : outcome value :=
  response <- send (api e) w (popular_request limit category) ;;
  Resolved (dot_data response).

Definition fetchBasketAnalysis (e : env) (w : world) : outcome value :=
  response <- get (api e) w "/analytics/basket-analysis" [] ;;
  Resolved (dot_data response).

(** The template literals interpolate [sku] and [id] as they are (no
    encoding) and the numbers with [String(n)]. *)
Definition fetchProductPerformance (e : env) (w : world) (sku : string) : outcome value :=
  response <- get (api e) w ("/analytics/product/" ++ sku ++ "/performance") [] ;;
  Resolved (dot_data response).

Definition fetchProduct (e : env) (w : world) (sku : string) : outcome value :=
  response <- get (api e) w ("/products/" ++ sku) [] ;;
  Resolved (dot_data response).

Definition fetchSimilarProducts (e : env) (w : world) (sku : string) (limit : option Z)
  : outcome value :=
  response <- get (api e) w
    ("/products/" ++ sku ++ "/similar?limit=" ++ string_of_Z (default 10 limit)) [] ;;
  Resolved (dot_data response).

Definition fetchProductReviews (e : env) (w : world) (sku : string) (limit offset : option Z)
  : outcome value :=
  response <- get (api e) w
    ("/products/" ++ sku ++ "/reviews?limit=" ++ string_of_Z (default 20 limit)
     ++ "&offset=" ++ string_of_Z (default 0 offset)) [] ;;
  Resolved (dot_data response).

Definition fetchCustomer (e : env) (w : world) (id : string) : outcome value :=
  response <- get (api e) w ("/customers/" ++ id) [] ;;
  Resolved (dot_data response).

Definition fetchCustomerPurchaseHistory (e : env) (w : world) (id : string)
  (limit offset : option Z) : outcome value :=
  response <- get (api e) w
    ("/customers/" ++ id ++ "/purchase-history?limit=" ++ string_of_Z (default 20 limit)
     ++ "&offset=" ++ string_of_Z (default 0 offset)) [] ;;
  Resolved (dot_data response).

Definition fetchCustomerAnalytics (e : env) (w : world) (id : string) : outcome value :=
  response <- get (api e) w ("/customers/" ++ id ++ "/analytics") [] ;;
  Resolved (dot_data response).

Definition fetchRecommendations (e : env) (w : world) (customerId : string)
  (algorithm : option string) (limit : option Z) (includeExplanation : option bool)
  : outcome value :=
  response <- post (api e) w "/recommendations"
                (recommendations_body customerId algorithm limit includeExplanation) ;;
  Resolved (dot_data response).

Definition fetchTrendingProducts (e : env) (w : world) (limit days : option Z)
  : outcome value :=
  response <- get (api e) w
    ("/recommendations/trending?limit=" ++ string_of_Z (default 10 limit)
     ++ "&days=" ++ string_of_Z (default 7 days)) [] ;;
  Resolved (dot_data response).

(** [api.post(url, { product_sku: productSku }, { params: { limit } })] *)
Definition fetchCrossSellProducts (e : env) (w : world) (productSku : string)
  (limit : option Z) : outcome value :=
  response <- send (api e) w
    (mkRequest POST "/recommendations/cross-sell" [("limit", PNum (default 5 limit))]
       (JObj [("product_sku", JStr productSku)])) ;;
  Resolved (dot_data response).

Definition checkHealth (e : env) (w : world) : outcome value :=
  response <- get (api e) w "/health" [] ;;
  Resolved (dot_data response).

End Part001.

(** ** src/unnamed/part_002 *)

Module Part002.
Import Axios Fallback.

Definition api_config (e : env) : client_config :=
  mkConfig (API_BASE_URL e) json_headers 10000.

Definition getMockData (url : string) : outcome jsval :=
  if includes url "dashboard-summary" then Resolved mock_dashboard_summary
  else if includes url "customer-segments" then Resolved mock_customer_segments
  else Resolved (JArr []).

Definition api (e : env) : instance :=
  mkInstance (api_config e) [fallback_interceptor getMockData].

Definition fetchDashboardSummary (e : env) (w : world) : outcome value :=
  get (api e) w "/analytics/dashboard-summary" [].

Definition fetchCustomerSegments (e : env) (w : world) : outcome value :=
  get (api e) w "/analytics/customer-segments" [].

Definition revenue_body (startDate endDate : option Date) : outcome jsval :=
  s <- opt_iso startDate ;;
  t <- opt_iso endDate ;;
  Resolved (JObj [("start_date", s); ("end_date", t)]).

Definition fetchRevenueAnalytics (e : env) (w : world) (startDate endDate : option Date)
  : outcome value :=
  body <- revenue_body startDate endDate ;;
  post (api e) w "/analytics/revenue" body.

Definition products_request (limit offset : option Z) (category : option string) : request :=
  mkRequest GET ("/products?" ++ usp_to_string (Part001.products_search limit offset category))
    [] JUndefined.

Definition fetchProducts (e : env) (w : world) (limit offset : option Z)
  (category : option string) : outcome value :=
  send (api e) w (products_request limit offset category).

Definition customers_request (limit offset : option Z) (segment : option string) : request :=
  mkRequest GET ("/customers?" ++ usp_to_string (Part001.customers_search limit offset segment))
    [] JUndefined.

Definition fetchCustomers (e : env) (w : world) (limit offset : option Z)
  (segment : option string) : outcome value :=
  send (api e) w (customers_request limit offset segment).

Definition fetchRecommendations (e : env) (w : world) (customerId : string)
  (algorithm : option string) (limit : option Z) (includeExplanation : option bool)
  : outcome value :=
  post (api e) w "/recommendations"
    (recommendations_body customerId algorithm limit includeExplanation).

Definition checkHealth (e : env) (w : world) : outcome value :=
  get (api e) w "/health" [].

End Part002.

(** ** Callers of [fetchCustomers] and [fetchProducts] *)

Module Callers.

(** [segment === 'all' ? undefined : segment], the filter argument of
    [CustomerList.loadCustomers] (part_006); [ProductGrid.loadProducts]
    (frontend/app/products/components/ProductDetails.tsx) passes its
    [category] the same way. *)
Definition all_to_undefined (s : string) : option string :=
  if String.eqb s "all" then None else Some s.

End Callers.

(** * Lemmas *)

(** ** Strings without a given character *)

Fixpoint no_char (c : ascii) (s : string) : bool :=
  match s with
  | EmptyString => true
  | String a s' => negb (Ascii.eqb a c) && no_char c s'
  end.

Lemma no_char_app : forall c x y, no_char c (x ++ y) = no_char c x && no_char c y.
Proof.
  intros c x y; induction x as [|a x IH]; simpl; [reflexivity|].
  rewrite IH; apply andb_assoc.
Qed.

Lemma break_at_app : forall c x y,
  no_char c x = true -> break_at c (x ++ String c y) = (x, Some y).
Proof.
  intros c x y; induction x as [|a x IH]; simpl; intro H.
  - rewrite Ascii.eqb_refl; reflexivity.
  - apply andb_prop in H as [Ha Hx].
    destruct (Ascii.eqb a c); [discriminate|].
    rewrite (IH Hx); reflexivity.
Qed.

Lemma split_on_none : forall c x, no_char c x = true -> split_on c x = [x].
Proof.
  intros c x; induction x as [|a x IH]; simpl; intro H; [reflexivity|].
  apply andb_prop in H as [Ha Hx].
  destruct (Ascii.eqb a c); [discriminate|].
  rewrite (IH Hx); reflexivity.
Qed.

Lemma split_on_app : forall c x y,
  no_char c x = true -> split_on c (x ++ String c y) = x :: split_on c y.
Proof.
  intros c x y; induction x as [|a x IH]; simpl; intro H.
  - rewrite Ascii.eqb_refl; reflexivity.
  - apply andb_prop in H as [Ha Hx].
    destruct (Ascii.eqb a c); [discriminate|].
    rewrite (IH Hx); reflexivity.
Qed.

Lemma split_join : forall c xs,
  xs <> [] -> Forall (fun x => no_char c x = true) xs ->
  split_on c (join (String c EmptyString) xs) = xs.
Proof.
  intros c xs; induction xs as [|x xs IH]; intros Hne Hall; [congruence|].
  inversion Hall as [|? ? Hx Hxs]; subst.
  destruct xs as [|y ys].
  - simpl; apply split_on_none; exact Hx.
  - change (join (String c EmptyString) (x :: y :: ys))
      with (x ++ String c (join (String c EmptyString) (y :: ys))).
    rewrite (split_on_app _ _ _ Hx), IH; [reflexivity|discriminate|exact Hxs].
Qed.

Lemma parse_query_nonempty : forall q,
  q <> EmptyString -> parse_query q = map parse_pair (split_on "&" q).
Proof. intros [|a q] H; [congruence|reflexivity]. Qed.

(** ** Per-byte facts of the two encoders, checked on all 256 bytes *)

Ltac all_bytes :=
  let a := fresh "a" in
  intro a; destruct a as [[] [] [] [] [] [] [] []]; reflexivity.

Lemma form_decode_form_char : forall a rest,
  form_decode (form_encode_char a ++ rest) = String a (form_decode rest).
Proof. intros a rest; revert a; all_bytes. Qed.

Lemma form_decode_axios_char : forall a rest,
  form_decode (axios_encode_char a ++ rest) = String a (form_decode rest).
Proof. intros a rest; revert a; all_bytes. Qed.

Lemma form_char_no_amp : forall a, no_char "&" (form_encode_char a) = true.
Proof. all_bytes. Qed.

Lemma form_char_no_eq : forall a, no_char "=" (form_encode_char a) = true.
Proof. all_bytes. Qed.

Lemma axios_char_no_amp : forall a, no_char "&" (axios_encode_char a) = true.
Proof. all_bytes. Qed.

Lemma axios_char_no_eq : forall a, no_char "=" (axios_encode_char a) = true.
Proof. all_bytes. Qed.

(** ** Encoding, joining and parsing a query string round-trips *)

Section Roundtrip.

Variable enc_char : ascii -> string.
Variable enc : string -> string.
Hypothesis enc_nil : enc EmptyString = EmptyString.
Hypothesis enc_cons : forall a s, enc (String a s) = enc_char a ++ enc s.
Hypothesis dec_char : forall a rest,
  form_decode (enc_char a ++ rest) = String a (form_decode rest).
Hypothesis char_no_amp : forall a, no_char "&" (enc_char a) = true.
Hypothesis char_no_eq : forall a, no_char "=" (enc_char a) = true.

Lemma decode_enc : forall s, form_decode (enc s) = s.
Proof.
  induction s as [|a s IH]; [rewrite enc_nil; reflexivity|].
  rewrite enc_cons, dec_char, IH; reflexivity.
Qed.

Lemma enc_no_char : forall c, (forall a, no_char c (enc_char a) = true) ->
  forall s, no_char c (enc s) = true.
Proof.
  intros c Hc s; induction s as [|a s IH]; [rewrite enc_nil; reflexivity|].
  rewrite enc_cons, no_char_app, Hc, IH; reflexivity.
Qed.

Definition enc_pair (p : string * string) : string :=
  let '(k, v) := p in enc k ++ "=" ++ enc v.

Lemma parse_enc_pair : forall p, parse_pair (enc_pair p) = p.
Proof.
  intros [k v]; unfold parse_pair, enc_pair.
  change ("=" ++ enc v) with (String "=" (enc v)).
  rewrite break_at_app by (apply enc_no_char, char_no_eq).
  rewrite !decode_enc; reflexivity.
Qed.

Lemma enc_pair_no_amp : forall p, no_char "&" (enc_pair p) = true.
Proof.
  intros [k v]; unfold enc_pair.
  rewrite !no_char_app, !enc_no_char by exact char_no_amp; reflexivity.
Qed.

Lemma join_enc_pairs_nonempty : forall p ps,
  join "&" (map enc_pair (p :: ps)) <> EmptyString.
Proof.
  intros [k v] ps; simpl.
  destruct (map enc_pair ps); destruct (enc k); simpl; discriminate.
Qed.

Lemma parse_query_enc : forall ps,
  parse_query (join "&" (map enc_pair ps)) = ps.
Proof.
  intros [|p ps]; [reflexivity|].
  rewrite parse_query_nonempty by apply join_enc_pairs_nonempty.
  rewrite split_join.
  - rewrite map_map; erewrite map_ext by apply parse_enc_pair; apply map_id.
  - discriminate.
  - apply Forall_forall; intros x Hx; apply in_map_iff in Hx as [q [<- _]].
    apply enc_pair_no_amp.
Qed.

End Roundtrip.

(** ** Query strings of the two request styles *)

Import Axios Fallback.

Lemma includes_char : forall c s,
  includes s (String c EmptyString) = negb (no_char c s).
Proof.
  intros c s; induction s as [|a s IH]; [reflexivity|].
  simpl; rewrite IH, andb_true_r.
  destruct (Ascii.eqb c a) eqn:E1, (Ascii.eqb a c) eqn:E2; try reflexivity.
  - apply Ascii.eqb_eq in E1; subst; rewrite Ascii.eqb_refl in E2; discriminate.
  - apply Ascii.eqb_eq in E2; subst; rewrite Ascii.eqb_refl in E1; discriminate.
Qed.

Lemma usp_query : forall qs, parse_query (usp_to_string qs) = qs.
Proof.
  intro qs; exact (parse_query_enc form_encode_char form_encode eq_refl (fun _ _ => eq_refl)
                     form_decode_form_char form_char_no_amp form_char_no_eq qs).
Qed.

Lemma serialize_query : forall ps,
  parse_query (serialize_params ps) = map (fun '(k, v) => (k, pval_to_string v)) ps.
Proof.
  intro ps.
  pose proof (parse_query_enc axios_encode_char axios_encode eq_refl (fun _ _ => eq_refl)
                form_decode_axios_char axios_char_no_amp axios_char_no_eq
                (map (fun '(k, v) => (k, pval_to_string v)) ps)) as H.
  unfold serialize_params; rewrite <- H, map_map; do 2 f_equal.
  apply map_ext; intros [k v]; reflexivity.
Qed.

Lemma serialize_nonempty : forall p ps, serialize_params (p :: ps) <> EmptyString.
Proof.
  intros [k v] ps; unfold serialize_params; simpl.
  destruct (map _ ps); destruct (axios_encode k); simpl; discriminate.
Qed.

(** A request with its parameters in [params] (part_000). *)
Lemma eff_params : forall m url ps d,
  no_char "?" url = true -> ps <> [] ->
  eff_path (mkRequest m url ps d) = url /\
  eff_query (mkRequest m url ps d) = map (fun '(k, v) => (k, pval_to_string v)) ps.
Proof.
  intros m url [|p ps] d Hurl Hps; [congruence|].
  unfold eff_path, eff_query, eff_url, build_url; simpl req_url; simpl req_params.
  destruct (serialize_params (p :: ps)) as [|a sp] eqn:E;
    [exfalso; exact (serialize_nonempty p ps E)|].
  rewrite includes_char, Hurl; simpl negb; cbv iota.
  change ("?" ++ String a sp) with (String "?" (String a sp)).
  rewrite break_at_app by exact Hurl; cbn [fst snd].
  split; [reflexivity|].
  rewrite <- E; apply serialize_query.
Qed.

(** A request whose query is built into the URL (part_001, part_002). *)
Lemma eff_search : forall m path qs d,
  no_char "?" path = true ->
  eff_path (mkRequest m (path ++ "?" ++ usp_to_string qs) [] d) = path /\
  eff_query (mkRequest m (path ++ "?" ++ usp_to_string qs) [] d) = qs.
Proof.
  intros m path qs d Hp.
  unfold eff_path, eff_query, eff_url, build_url; simpl.
  change ("?" ++ usp_to_string qs) with (String "?" (usp_to_string qs)).
  rewrite break_at_app by exact Hp; simpl.
  split; [reflexivity|apply usp_query].
Qed.

(** ** The fallback interceptor *)

Lemma fallback_masked : forall cfg gm w req c,
  masked_code c = true -> w (to_wire req) = TFail c ->
  send (mkInstance cfg [fallback_interceptor gm]) w req
  = (v <- gm (req_url req) ;; Resolved (VJs v)).
Proof.
  intros cfg gm w req c Hc Hw; unfold send; rewrite Hw; simpl.
  unfold is_masked; simpl; rewrite Hc; reflexivity.
Qed.

Lemma fallback_unmasked : forall cfg gm w req err,
  dispatch cfg req (w (to_wire req)) = Rejected err -> is_masked err = false ->
  send (mkInstance cfg [fallback_interceptor gm]) w req = Rejected err.
Proof.
  intros cfg gm w req err Hd Hm; unfold send; cbn [inst_config]; rewrite Hd; simpl.
  rewrite Hm; reflexivity.
Qed.

Lemma masked_code_iff : forall code,
  code = "ECONNREFUSED" \/ code = "ERR_NETWORK" -> masked_code (Some code) = true.
Proof. intros code [-> | ->]; reflexivity. Qed.

(** Concrete inputs used below. *)
Definition sample_env : env := mkEnv None 1700000000000 (fun _ => 1 # 2).
Definition refused : world := fun _ => TFail (Some "ECONNREFUSED").

(** * Claims *)

(** ** C1 *)

(** C1: in both interceptor variants (part_000, part_002), a request whose
    transport fails with [ECONNREFUSED] or [ERR_NETWORK] and whose URL
    contains "dashboard-summary" resolves (does not reject) with exactly the
    literal dashboard summary. *)
Theorem dashboard_summary_fallback :
  forall (e : env) (w : world) (req : request) (code : string),
    code = "ECONNREFUSED" \/ code = "ERR_NETWORK" ->
    w (to_wire req) = TFail (Some code) ->
    includes (req_url req) "dashboard-summary" = true ->
    send (Part000.api e) w req =
      Resolved (VJs (JObj [("total_customers", num_Z 12543);
                           ("total_products", num_Z 3421);
                           ("total_purchases", num_Z 45632);
                           ("total_revenue", num_Z 2456789);
                           ("revenue_30d", num_Z 245678);
                           ("revenue_growth_30d", JNum (47 # 2));
                           ("active_customers_30d", num_Z 3456);
                           ("new_customers_30d", num_Z 234);
                           ("database_status", JStr "operational")]))
    /\ send (Part002.api e) w req = send (Part000.api e) w req.
Proof.
  intros e w req code Hcode Hw Hd.
  unfold Part000.api, Part002.api.
  rewrite !(fallback_masked _ _ _ _ _ (masked_code_iff code Hcode) Hw).
  unfold Part000.getMockData, Part002.getMockData; rewrite Hd.
  split; reflexivity.
Qed.

Lemma dashboard_summary_fallback_witness :
  refused (to_wire (mkRequest GET "/analytics/dashboard-summary" [] JUndefined))
    = TFail (Some "ECONNREFUSED")
  /\ send (Part000.api sample_env) refused
       (mkRequest GET "/analytics/dashboard-summary" [] JUndefined)
     = Resolved (VJs Fallback.mock_dashboard_summary).
Proof.
  split; [reflexivity|].
  apply (dashboard_summary_fallback sample_env refused
           (mkRequest GET "/analytics/dashboard-summary" [] JUndefined) "ECONNREFUSED").
  - left; reflexivity.
  - reflexivity.
  - reflexivity.
Defined.

(** ** C2 *)

(** C2: in both interceptor variants, an error whose code is neither
    [ECONNREFUSED] nor [ERR_NETWORK] (HTTP 4xx/5xx, timeout, any other code
    or none) makes the call reject with that very error value; no mock data
    is substituted. *)
Theorem unmasked_error_propagates :
  forall (e : env) (w : world) (req : request) (err : js_error),
    error_code err <> Some "ECONNREFUSED" ->
    error_code err <> Some "ERR_NETWORK" ->
    dispatch (Part000.api_config e) req (w (to_wire req)) = Rejected err ->
    send (Part000.api e) w req = Rejected err
    /\ send (Part002.api e) w req = Rejected err.
Proof.
  intros e w req err H1 H2 Hd.
  assert (Hm : is_masked err = false).
  { unfold is_masked, masked_code.
    destruct (error_code err) as [c|]; [|reflexivity].
    destruct (String.eqb_spec c "ECONNREFUSED"); [subst; congruence|].
    destruct (String.eqb_spec c "ERR_NETWORK"); [subst; congruence|].
    reflexivity. }
  split; apply fallback_unmasked; assumption.
Qed.

Definition server_error : world := fun _ => TRespond 120 (mkResponse 500 JNull).

Lemma unmasked_error_propagates_witness :
  send (Part000.api sample_env) server_error (Part000.products_request None None None)
    = Rejected (AxiosError (Some "ERR_BAD_RESPONSE") (Part000.products_request None None None)
                  (Some (mkResponse 500 JNull)))
  /\ send (Part002.api sample_env) server_error (Part000.products_request None None None)
    = Rejected (AxiosError (Some "ERR_BAD_RESPONSE") (Part000.products_request None None None)
                  (Some (mkResponse 500 JNull))).
Proof.
  apply (unmasked_error_propagates sample_env server_error
           (Part000.products_request None None None)
           (AxiosError (Some "ERR_BAD_RESPONSE") (Part000.products_request None None None)
              (Some (mkResponse 500 JNull)))).
  - discriminate.
  - discriminate.
  - reflexivity.
Defined.

(** ** C3 *)

(** C3 (as amended): a request whose transport fails with [ECONNREFUSED] or
    [ERR_NETWORK] and whose URL contains neither "dashboard-summary" nor
    "customer-segments" resolves with an empty array in part_002; in
    part_000 this holds when the URL does not contain "revenue" either. *)
Theorem other_paths_fallback :
  forall (e : env) (w : world) (req : request) (c : option string),
    masked_code c = true ->
    w (to_wire req) = TFail c ->
    includes (req_url req) "dashboard-summary" = false ->
    includes (req_url req) "customer-segments" = false ->
    send (Part002.api e) w req = Resolved (VJs (JArr []))
    /\ (includes (req_url req) "revenue" = false ->
        send (Part000.api e) w req = Resolved (VJs (JArr []))).
Proof.
  intros e w req c Hc Hw Hd Hs.
  unfold Part000.api, Part002.api.
  rewrite !(fallback_masked _ _ _ _ _ Hc Hw).
  unfold Part000.getMockData, Part002.getMockData; rewrite Hd, Hs.
  split; [reflexivity|].
  intro Hr; rewrite Hr; reflexivity.
Qed.

Lemma other_paths_fallback_witness :
  send (Part002.api sample_env) refused (Part000.customers_request None None None)
    = Resolved (VJs (JArr []))
  /\ send (Part000.api sample_env) refused (Part000.customers_request None None None)
    = Resolved (VJs (JArr [])).
Proof.
  destruct (other_paths_fallback sample_env refused (Part000.customers_request None None None)
              (Some "ECONNREFUSED") eq_refl eq_refl eq_refl eq_refl) as [H1 H2].
  split; [exact H1|apply H2; reflexivity].
Defined.

(** C3 fails as stated in part_000: [fetchRevenueAnalytics()] requests
    "/analytics/revenue", which contains neither "dashboard-summary" nor
    "customer-segments"; on a refused connection it resolves with the
    generated revenue object, not with an empty array. *)
Lemma other_paths_fallback_counterexample :
  includes "/analytics/revenue" "dashboard-summary" = false
  /\ includes "/analytics/revenue" "customer-segments" = false
  /\ Part000.fetchRevenueAnalytics sample_env refused None None
     <> Resolved (VJs (JArr [])).
Proof.
  split; [reflexivity|split; [reflexivity|]].
  vm_compute; discriminate.
Qed.

(** ** C4 *)

(** C4 (as amended): in both interceptor variants, a request whose
    transport fails with [ECONNREFUSED] or [ERR_NETWORK] and whose URL
    contains "customer-segments" but not "dashboard-summary" resolves with
    exactly the three literal segments, in the order Champions, Loyal,
    Potential. *)
Theorem customer_segments_fallback :
  forall (e : env) (w : world) (req : request) (c : option string),
    masked_code c = true ->
    w (to_wire req) = TFail c ->
    includes (req_url req) "customer-segments" = true ->
    includes (req_url req) "dashboard-summary" = false ->
    send (Part000.api e) w req =
      Resolved (VJs (JArr
        [JObj [("segment_name", JStr "Champions"); ("customer_count", num_Z 2450);
               ("percentage", JNum (49 # 2))];
         JObj [("segment_name", JStr "Loyal"); ("customer_count", num_Z 3200);
               ("percentage", num_Z 32)];
         JObj [("segment_name", JStr "Potential"); ("customer_count", num_Z 1800);
               ("percentage", num_Z 18)]]))
    /\ send (Part002.api e) w req = send (Part000.api e) w req.
Proof.
  intros e w req c Hc Hw Hs Hd.
  unfold Part000.api, Part002.api.
  rewrite !(fallback_masked _ _ _ _ _ Hc Hw).
  unfold Part000.getMockData, Part002.getMockData; rewrite Hd, Hs.
  split; reflexivity.
Qed.

Lemma customer_segments_fallback_witness :
  send (Part000.api sample_env) refused (mkRequest GET "/analytics/customer-segments" [] JUndefined)
    = Resolved (VJs Fallback.mock_customer_segments).
Proof.
  apply (customer_segments_fallback sample_env refused
           (mkRequest GET "/analytics/customer-segments" [] JUndefined) (Some "ECONNREFUSED"));
    reflexivity.
Defined.

(** C4 fails as stated: in part_002, [fetchCustomers(50, 0,
    "dashboard-summary-customer-segments")] requests a URL that contains
    "customer-segments"; on a refused connection it resolves with the
    dashboard summary, because "dashboard-summary" is tested first. *)
Lemma customer_segments_fallback_counterexample :
  includes (req_url (Part002.customers_request (Some 50) (Some 0)
                       (Some "dashboard-summary-customer-segments"))) "customer-segments" = true
  /\ Part002.fetchCustomers sample_env refused (Some 50) (Some 0)
       (Some "dashboard-summary-customer-segments")
     = Resolved (VJs Fallback.mock_dashboard_summary)
  /\ Part002.fetchCustomers sample_env refused (Some 50) (Some 0)
       (Some "dashboard-summary-customer-segments")
     <> Resolved (VJs Fallback.mock_customer_segments).
Proof.
  split; [vm_compute; reflexivity|split; [vm_compute; reflexivity|]].
  vm_compute; congruence.
Qed.

(** ** C5 *)

(** C5 (as amended): both interceptor variants configure the JSON
    content-type header and a 10000 ms timeout; a request that gets no
    answer, or an answer later than 10000 ms, rejects with the axios
    timeout error ([ECONNABORTED]), which the interceptor does not mask.
    The variant without interceptor (part_001) configures the same header
    and no timeout (axios' default 0). *)
Theorem timeout_configuration :
  forall (e : env) (w : world) (req : request),
    (w (to_wire req) = TNoAnswer
     \/ exists lat r, w (to_wire req) = TRespond lat r /\ 10000 < lat) ->
    cfg_headers (Part000.api_config e) = [("Content-Type", "application/json")]
    /\ cfg_timeout (Part000.api_config e) = 10000
    /\ cfg_headers (Part002.api_config e) = [("Content-Type", "application/json")]
    /\ cfg_timeout (Part002.api_config e) = 10000
    /\ cfg_headers (Part001.api_config e) = [("Content-Type", "application/json")]
    /\ cfg_timeout (Part001.api_config e) = 0
    /\ send (Part000.api e) w req = Rejected (AxiosError (Some "ECONNABORTED") req None)
    /\ send (Part002.api e) w req = Rejected (AxiosError (Some "ECONNABORTED") req None).
Proof.
  intros e w req Hw.
  do 6 (split; [reflexivity|]).
  assert (Hd : dispatch (Part000.api_config e) req (w (to_wire req))
               = Rejected (AxiosError (Some "ECONNABORTED") req None)).
  { destruct Hw as [Hw | [lat [r [Hw Hlat]]]]; rewrite Hw; simpl; [reflexivity|].
    replace (10000 <? lat) with true by (symmetry; apply Z.ltb_lt; exact Hlat).
    reflexivity. }
  split; apply fallback_unmasked; try exact Hd; reflexivity.
Qed.

Definition slow_ok : world := fun _ => TRespond 15000 (mkResponse 200 (JArr [])).

Lemma timeout_configuration_witness :
  send (Part000.api sample_env) slow_ok (Part000.products_request None None None)
    = Rejected (AxiosError (Some "ECONNABORTED") (Part000.products_request None None None) None).
Proof.
  apply (timeout_configuration sample_env slow_ok (Part000.products_request None None None)).
  right; exists 15000, (mkResponse 200 (JArr [])); split; [reflexivity|lia].
Defined.

(** C5 fails as stated for part_001: its client has no timeout, so a
    request that never gets an answer stays pending. *)
Lemma timeout_configuration_counterexample :
  cfg_timeout (Part001.api_config sample_env) = 0
  /\ Part001.fetchProducts sample_env (fun _ => TNoAnswer) None None None = Pending.
Proof. split; reflexivity. Qed.

(** ** C6 *)

Lemma filter_param_strings : forall {A} k (mk : string -> A) (f : A -> string) c,
  (forall s, f (mk s) = s) ->
  map (fun '(k', v) => (k', f v)) (filter_param k mk c)
  = match c with Some (String a s) => [(k, String a s)] | _ => [] end.
Proof.
  intros A k mk f [[|a s]|] Hf; simpl; try reflexivity.
  rewrite Hf; reflexivity.
Qed.

(** Query of a list request with an optional string filter, in the two
    request styles. *)
Lemma paged_params_query : forall url k l o dl dof c,
  no_char "?" url = true ->
  eff_path (mkRequest GET url
              ([("limit", PNum (default dl l)); ("offset", PNum (default dof o))]
               ++ filter_param k PStr c)%list JUndefined) = url
  /\ eff_query (mkRequest GET url
              ([("limit", PNum (default dl l)); ("offset", PNum (default dof o))]
               ++ filter_param k PStr c)%list JUndefined)
     = ([("limit", string_of_Z (default dl l)); ("offset", string_of_Z (default dof o))]
        ++ match c with Some (String a s) => [(k, String a s)] | _ => [] end)%list.
Proof.
  intros url k l o dl dof c Hu.
  destruct (eff_params GET url
              ([("limit", PNum (default dl l)); ("offset", PNum (default dof o))]
               ++ filter_param k PStr c)%list JUndefined Hu ltac:(discriminate)) as [P Q].
  split; [exact P|]; rewrite Q; simpl.
  rewrite (filter_param_strings k PStr pval_to_string c (fun _ => eq_refl)); reflexivity.
Qed.

Lemma paged_search_query : forall path k l o dl dof c,
  no_char "?" path = true ->
  eff_path (mkRequest GET (path ++ "?" ++ usp_to_string
              ([("limit", string_of_Z (default dl l)); ("offset", string_of_Z (default dof o))]
               ++ filter_param k (fun s => s) c)%list) [] JUndefined) = path
  /\ eff_query (mkRequest GET (path ++ "?" ++ usp_to_string
              ([("limit", string_of_Z (default dl l)); ("offset", string_of_Z (default dof o))]
               ++ filter_param k (fun s => s) c)%list) [] JUndefined)
     = ([("limit", string_of_Z (default dl l)); ("offset", string_of_Z (default dof o))]
        ++ match c with Some (String a s) => [(k, String a s)] | _ => [] end)%list.
Proof.
  intros path k l o dl dof c Hp.
  destruct (eff_search GET path
              ([("limit", string_of_Z (default dl l)); ("offset", string_of_Z (default dof o))]
               ++ filter_param k (fun s => s) c)%list JUndefined Hp) as [P Q].
  split; [exact P|]; rewrite Q; destruct c as [[|a s]|]; reflexivity.
Qed.

Lemma products_eff : forall l o c,
  eff_path (Part000.products_request l o c) = "/products"
  /\ eff_query (Part000.products_request l o c)
     = ([("limit", string_of_Z (default 50 l)); ("offset", string_of_Z (default 0 o))]
        ++ match c with Some (String a s) => [("category", String a s)] | _ => [] end)%list
  /\ eff_path (Part001.products_request l o c) = "/products"
  /\ eff_query (Part001.products_request l o c) = eff_query (Part000.products_request l o c)
  /\ eff_path (Part002.products_request l o c) = "/products"
  /\ eff_query (Part002.products_request l o c) = eff_query (Part000.products_request l o c).
Proof.
  intros l o c.
  destruct (paged_params_query "/products" "category" l o 50 0 c eq_refl) as [P0 Q0].
  destruct (paged_search_query "/products" "category" l o 50 0 c eq_refl) as [P1 Q1].
  split; [exact P0|]. split; [exact Q0|]. split; [exact P1|].
  split; [exact (eq_trans Q1 (eq_sym Q0))|]. split; [exact P1|].
  exact (eq_trans Q1 (eq_sym Q0)).
Qed.

Lemma customers_eff : forall l o c,
  eff_query (Part000.customers_request l o c)
     = ([("limit", string_of_Z (default 50 l)); ("offset", string_of_Z (default 0 o))]
        ++ match c with Some (String a s) => [("segment", String a s)] | _ => [] end)%list
  /\ eff_query (Part001.customers_request l o c) = eff_query (Part000.customers_request l o c)
  /\ eff_query (Part002.customers_request l o c) = eff_query (Part000.customers_request l o c).
Proof.
  intros l o c.
  destruct (paged_params_query "/customers" "segment" l o 50 0 c eq_refl) as [P0 Q0].
  destruct (paged_search_query "/customers" "segment" l o 50 0 c eq_refl) as [P1 Q1].
  split; [exact Q0|].
  split; exact (eq_trans Q1 (eq_sym Q0)).
Qed.

Lemma popular_eff : forall l c,
  eff_query (Part001.popular_request l c)
  = ([("limit", string_of_Z (default 10 l))]
     ++ match c with Some (String a s) => [("category", String a s)] | _ => [] end)%list.
Proof.
  intros l c.
  destruct (eff_search GET "/recommendations/popular" (Part001.popular_search l c)
              JUndefined eq_refl) as [_ Q].
  refine (eq_trans Q _).
  unfold Part001.popular_search; destruct c as [[|a s]|]; reflexivity.
Qed.

(** C6 (as amended): every [fetchProducts] issues a GET to "/products"
    whose query holds [limit] and [offset] (defaults 50 and 0) and, after
    them, [category] exactly when a non-empty category string is given;
    in particular [fetchProducts(50, 0)] sends exactly [limit=50&offset=0]
    and [fetchProducts(50, 0, "electronics")] adds [category=electronics].
    Stated for the three variants. *)
Theorem products_query :
  forall (l o : option Z) (c : option string),
    req_method (Part000.products_request l o c) = GET
    /\ eff_path (Part000.products_request l o c) = "/products"
    /\ eff_query (Part000.products_request l o c)
       = ([("limit", string_of_Z (default 50 l)); ("offset", string_of_Z (default 0 o))]
          ++ match c with Some (String a s) => [("category", String a s)] | _ => [] end)%list
    /\ req_method (Part001.products_request l o c) = GET
    /\ eff_path (Part001.products_request l o c) = "/products"
    /\ eff_query (Part001.products_request l o c) = eff_query (Part000.products_request l o c)
    /\ req_method (Part002.products_request l o c) = GET
    /\ eff_path (Part002.products_request l o c) = "/products"
    /\ eff_query (Part002.products_request l o c) = eff_query (Part000.products_request l o c)
    /\ eff_query (Part000.products_request (Some 50) (Some 0) None)
       = [("limit", "50"); ("offset", "0")]
    /\ eff_query (Part000.products_request (Some 50) (Some 0) (Some "electronics"))
       = [("limit", "50"); ("offset", "0"); ("category", "electronics")].
Proof.
  intros l o c.
  destruct (products_eff l o c) as [P0 [Q0 [P1 [Q1 [P2 Q2]]]]].
  do 9 (split; [first [reflexivity | assumption]|]).
  split; vm_compute; reflexivity.
Qed.

(** C6 fails as stated: an empty category string is a supplied argument,
    yet no [category] key is sent (the same in part_000 and part_001). *)
Lemma products_query_counterexample :
  eff_query (Part000.products_request (Some 50) (Some 0) (Some ""))
    = [("limit", "50"); ("offset", "0")]
  /\ eff_query (Part001.products_request (Some 50) (Some 0) (Some ""))
    = [("limit", "50"); ("offset", "0")].
Proof. split; vm_compute; reflexivity. Qed.

(** ** C7 *)

(** The request fields the spec asks for: [k] set to [d.toISOString()] for a
    supplied date [d], no field for an omitted one. *)
Definition iso_field (k : string) (d : option Date) : list (string * string) :=
  match d with
  | Some d' => match toISOString d' with Some s => [(k, s)] | None => [] end
  | None => []
  end.

Lemma valid_iso : forall d, date_tv d <> None -> exists s, toISOString d = Some s.
Proof.
  intros [[t|]] H; [|exfalso; apply H; reflexivity].
  unfold toISOString; simpl.
  destruct (civil_from_days (t / ms_per_day)) as [[y m] dd].
  eexists; reflexivity.
Qed.

Ltac eff_query_of :=
  first [ reflexivity
        | match goal with
          | |- eff_query (mkRequest ?m ?u ?ps ?d) = _ =>
              rewrite (proj2 (eff_params m u ps d eq_refl ltac:(discriminate))); reflexivity
          end ].

(** C7 (as amended): when every supplied date is a valid [Date] (its time
    value is not NaN), part_000 sends [start_date] / [end_date] as query
    parameters holding [toISOString()] of the supplied dates, and part_001
    and part_002 post a JSON body with those fields; an omitted date omits
    its field in all three. *)
Theorem revenue_dates_serialized :
  forall (e : env) (w : world) (sd ed : option Date),
    (forall d, sd = Some d -> date_tv d <> None) ->
    (forall d, ed = Some d -> date_tv d <> None) ->
    (exists ps, Part000.revenue_params sd ed = Resolved ps
       /\ Part000.fetchRevenueAnalytics e w sd ed = get (Part000.api e) w "/analytics/revenue" ps
       /\ eff_query (mkRequest GET "/analytics/revenue" ps JUndefined)
          = (iso_field "start_date" sd ++ iso_field "end_date" ed)%list)
    /\ (exists body, Part001.revenue_body sd ed = Resolved body
         /\ json_normalize body
            = JObj (map (fun '(k, s) => (k, JStr s))
                      (iso_field "start_date" sd ++ iso_field "end_date" ed)%list))
    /\ Part002.revenue_body sd ed = Part001.revenue_body sd ed.
Proof.
  intros e w sd ed Hs He.
  destruct sd as [d1|]; [destruct (valid_iso d1 (Hs d1 eq_refl)) as [s1 H1]|];
  destruct ed as [d2|]; try destruct (valid_iso d2 (He d2 eq_refl)) as [s2 H2];
  unfold iso_field, Part000.fetchRevenueAnalytics, Part000.revenue_params,
    Part000.date_param, Part001.revenue_body, Part002.revenue_body, opt_iso;
  try rewrite H1; try rewrite H2; simpl;
  (split; [eexists; split; [reflexivity|split; [reflexivity|eff_query_of]]|
           split; [eexists; split; reflexivity|reflexivity]]).
Qed.

Lemma revenue_dates_serialized_witness :
  (exists ps, Part000.revenue_params (Some (mkDate (Some 0))) None = Resolved ps
     /\ Part000.fetchRevenueAnalytics sample_env refused (Some (mkDate (Some 0))) None
        = get (Part000.api sample_env) refused "/analytics/revenue" ps
     /\ eff_query (mkRequest GET "/analytics/revenue" ps JUndefined)
        = [("start_date", "1970-01-01T00:00:00.000Z")])
  /\ (exists body, Part001.revenue_body (Some (mkDate (Some 0))) None = Resolved body
       /\ json_normalize body = JObj [("start_date", JStr "1970-01-01T00:00:00.000Z")])
  /\ Part002.revenue_body (Some (mkDate (Some 0))) None
     = Part001.revenue_body (Some (mkDate (Some 0))) None.
Proof.
  apply (revenue_dates_serialized sample_env refused (Some (mkDate (Some 0))) None).
  - intros d Hd; injection Hd as <-; discriminate.
  - intros d Hd; discriminate.
Defined.

Definition ok_world : world := fun _ => TRespond 10 (mkResponse 200 (JArr [])).

(** C7 fails as stated for an invalid [Date] (time value NaN): it is a
    supplied [Date] argument, but [toISOString] throws a [RangeError], so
    no request is sent and the call rejects, in all three variants. *)
Lemma revenue_dates_serialized_counterexample :
  Part000.fetchRevenueAnalytics sample_env ok_world (Some (mkDate None)) None
    = Rejected RangeError
  /\ Part001.fetchRevenueAnalytics sample_env ok_world (Some (mkDate None)) None
    = Rejected RangeError
  /\ Part002.fetchRevenueAnalytics sample_env ok_world (Some (mkDate None)) None
    = Rejected RangeError.
Proof. repeat split. Qed.

(** ** C8 *)

(** C8: [fetchCustomerSegments()] in the interceptor variants depends only
    on what the network does with its request: two runs against the same
    network behaviour return equal values whatever the clock, the random
    numbers or the configured base URL; on a masked connection failure the
    value is the constant segment list. *)
Theorem customer_segments_deterministic :
  forall (e1 e2 : env) (w : world),
    Part000.fetchCustomerSegments e1 w = Part000.fetchCustomerSegments e2 w
    /\ Part002.fetchCustomerSegments e1 w = Part002.fetchCustomerSegments e2 w
    /\ (forall c, masked_code c = true ->
          w (to_wire (mkRequest GET "/analytics/customer-segments" [] JUndefined)) = TFail c ->
          Part000.fetchCustomerSegments e1 w = Resolved (VJs mock_customer_segments)
          /\ Part002.fetchCustomerSegments e1 w = Resolved (VJs mock_customer_segments)).
Proof.
  intros e1 e2 w.
  unfold Part000.fetchCustomerSegments, Part002.fetchCustomerSegments, get,
    Part000.api, Part002.api.
  split; [|split].
  - unfold send; cbn [inst_config inst_response_interceptors fold_left].
    destruct (w _) as [lat r| |c]; cbn;
      repeat (match goal with |- context [if ?b then _ else _] => destruct b end; cbn);
      reflexivity.
  - unfold send; cbn [inst_config inst_response_interceptors fold_left].
    destruct (w _) as [lat r| |c]; cbn;
      repeat (match goal with |- context [if ?b then _ else _] => destruct b end; cbn);
      reflexivity.
  - intros c Hc Hw.
    rewrite !(fallback_masked _ _ _ _ _ Hc Hw); split; reflexivity.
Qed.

Lemma customer_segments_deterministic_witness :
  Part000.fetchCustomerSegments sample_env refused
  = Part000.fetchCustomerSegments (mkEnv (Some "http://api.example") 0 (fun _ => 0 # 1)) refused
  /\ Part000.fetchCustomerSegments sample_env refused = Resolved (VJs mock_customer_segments).
Proof.
  destruct (customer_segments_deterministic sample_env
              (mkEnv (Some "http://api.example") 0 (fun _ => 0 # 1)) refused) as [H1 [_ H3]].
  split; [exact H1|].
  apply (H3 (Some "ECONNREFUSED")); reflexivity.
Defined.

(** ** C9 *)

Ltac no_empty_value Heq :=
  let v := fresh "v" in
  let H := fresh "H" in
  intros v H; rewrite Heq in H;
  repeat match goal with
  | H : In _ (_ ++ _)%list |- _ => apply in_app_or in H; destruct H as [H|H]
  | H : In _ (_ :: _) |- _ => destruct H as [H|H]
  | H : In _ [] |- _ => destruct H
  | H : (_, _) = (_, _) |- _ => injection H; clear H; intros; subst
  | H : In _ (match ?c with _ => _ end) |- _ => destruct c as [[|? ?]|]
  end; try discriminate; try congruence.

(** C9: an empty-string filter ([category] of [fetchProducts] and
    [fetchPopularProducts], [segment] of [fetchCustomers]) is falsy, so the
    call is the very call made without that argument; no request can carry
    an empty [category] or [segment] value. *)
Theorem empty_filter_omitted :
  forall (e : env) (w : world) (l o : option Z),
    Part000.fetchProducts e w l o (Some "") = Part000.fetchProducts e w l o None
    /\ Part001.fetchProducts e w l o (Some "") = Part001.fetchProducts e w l o None
    /\ Part002.fetchProducts e w l o (Some "") = Part002.fetchProducts e w l o None
    /\ Part000.fetchCustomers e w l o (Some "") = Part000.fetchCustomers e w l o None
    /\ Part001.fetchCustomers e w l o (Some "") = Part001.fetchCustomers e w l o None
    /\ Part002.fetchCustomers e w l o (Some "") = Part002.fetchCustomers e w l o None
    /\ Part001.fetchPopularProducts e w l (Some "") = Part001.fetchPopularProducts e w l None
    /\ (forall c v, In ("category", v) (eff_query (Part000.products_request l o c)) -> v <> "")
    /\ (forall c v, In ("category", v) (eff_query (Part001.products_request l o c)) -> v <> "")
    /\ (forall c v, In ("category", v) (eff_query (Part002.products_request l o c)) -> v <> "")
    /\ (forall c v, In ("segment", v) (eff_query (Part000.customers_request l o c)) -> v <> "")
    /\ (forall c v, In ("segment", v) (eff_query (Part001.customers_request l o c)) -> v <> "")
    /\ (forall c v, In ("segment", v) (eff_query (Part002.customers_request l o c)) -> v <> "")
    /\ (forall c v, In ("category", v) (eff_query (Part001.popular_request l c)) -> v <> "").
Proof.
  intros e w l o.
  do 7 (split; [reflexivity|]).
  split; [intro c; destruct (products_eff l o c) as [_ [Q _]]; no_empty_value Q|].
  split; [intro c; destruct (products_eff l o c) as [_ [Q [_ [Q1 _]]]];
          rewrite Q1; no_empty_value Q|].
  split; [intro c; destruct (products_eff l o c) as [_ [Q [_ [_ [_ Q2]]]]];
          rewrite Q2; no_empty_value Q|].
  split; [intro c; destruct (customers_eff l o c) as [Q _]; no_empty_value Q|].
  split; [intro c; destruct (customers_eff l o c) as [Q [Q1 _]]; rewrite Q1; no_empty_value Q|].
  split; [intro c; destruct (customers_eff l o c) as [Q [_ Q2]]; rewrite Q2; no_empty_value Q|].
  intro c; pose proof (popular_eff l c) as Q; no_empty_value Q.
Qed.

Lemma empty_filter_omitted_witness :
  In ("category", "electronics")
     (eff_query (Part000.products_request None None (Some "electronics")))
  /\ "electronics" <> "".
Proof.
  assert (Hin : In ("category", "electronics")
                   (eff_query (Part000.products_request None None (Some "electronics"))))
    by (vm_compute; right; right; left; reflexivity).
  split; [exact Hin|].
  destruct (empty_filter_omitted sample_env refused None None)
    as [_ [_ [_ [_ [_ [_ [_ [H _]]]]]]]].
  exact (H (Some "electronics") "electronics" Hin).
Defined.

(** ** C10 *)

(** C10 (as amended): [fetchProducts] of part_000 (interceptor, 10 s
    timeout) and of part_001 (no interceptor, no timeout) put the same
    request on the wire (GET, same path, same decoded query) and, for
    every 2xx response that arrives within 10000 ms, both resolve with the
    response's [data]. *)
Theorem products_variants_agree :
  forall (e : env) (w : world) (l o : option Z) (c : option string),
    to_wire (Part000.products_request l o c) = to_wire (Part001.products_request l o c)
    /\ (forall lat r,
          w (to_wire (Part000.products_request l o c)) = TRespond lat r ->
          validate_status (res_status r) = true ->
          lat <= 10000 ->
          Part000.fetchProducts e w l o c = Resolved (VJs (res_data r))
          /\ Part001.fetchProducts e w l o c = Resolved (VJs (res_data r))).
Proof.
  intros e w l o c.
  destruct (products_eff l o c) as [P0 [_ [P1 [Q1 _]]]].
  assert (Hw : to_wire (Part000.products_request l o c) = to_wire (Part001.products_request l o c)).
  { unfold to_wire; rewrite P0, P1, Q1; reflexivity. }
  split; [exact Hw|].
  intros lat r Hr Hs Hlat.
  unfold Part000.fetchProducts, Part001.fetchProducts, send; cbn [inst_config inst_response_interceptors fold_left].
  rewrite <- Hw, Hr; cbn.
  replace (10000 <? lat) with false by (symmetry; apply Z.ltb_ge; exact Hlat).
  rewrite Hs; split; reflexivity.
Qed.

Definition ok_products : world := fun _ => TRespond 80 (mkResponse 200 (JArr [JStr "sku-1"])).

Lemma products_variants_agree_witness :
  Part000.fetchProducts sample_env ok_products None None None = Resolved (VJs (JArr [JStr "sku-1"]))
  /\ Part001.fetchProducts sample_env ok_products None None None = Resolved (VJs (JArr [JStr "sku-1"])).
Proof.
  destruct (products_variants_agree sample_env ok_products None None None) as [_ H].
  apply (H 80 (mkResponse 200 (JArr [JStr "sku-1"]))); [reflexivity|reflexivity|lia].
Defined.

(** C10 fails as stated: a 2xx answer that arrives after 15000 ms is
    returned by part_001 but turned into a timeout rejection by part_000. *)
Lemma products_variants_agree_counterexample :
  slow_ok (to_wire (Part000.products_request None None None))
    = TRespond 15000 (mkResponse 200 (JArr []))
  /\ Part000.fetchProducts sample_env slow_ok None None None
     = Rejected (AxiosError (Some "ECONNABORTED") (Part000.products_request None None None) None)
  /\ Part001.fetchProducts sample_env slow_ok None None None = Resolved (VJs (JArr [])).
Proof. split; [reflexivity|split; vm_compute; reflexivity]. Qed.

(** * Further properties of the API layer *)

(** ** Template-literal URLs *)

Lemma str_app_assoc : forall x y z : string, (x ++ y) ++ z = x ++ y ++ z.
Proof. intros x y z; induction x as [|a x IH]; simpl; [reflexivity|rewrite IH; reflexivity]. Qed.

Lemma break_at_none : forall c x, no_char c x = true -> break_at c x = (x, None).
Proof.
  intros c x; induction x as [|a x IH]; simpl; intro H; [reflexivity|].
  apply andb_prop in H as [Ha Hx].
  destruct (Ascii.eqb a c); [discriminate|].
  rewrite (IH Hx); reflexivity.
Qed.

(** A URL without [?] and without [params]: the whole URL is the path. *)
Lemma wire_plain : forall m url d,
  no_char "?" url = true -> to_wire (mkRequest m url [] d) = mkWire m url [] (json_normalize d).
Proof.
  intros m url d H; unfold to_wire, eff_path, eff_query, eff_url, build_url; simpl.
  rewrite break_at_none by exact H; reflexivity.
Qed.

(** A URL [path?q] without [params]: the server reads the query [q]. *)
Lemma wire_raw : forall m path q d,
  no_char "?" path = true ->
  to_wire (mkRequest m (path ++ "?" ++ q) [] d) = mkWire m path (parse_query q) (json_normalize d).
Proof.
  intros m path q d H; unfold to_wire, eff_path, eff_query, eff_url, build_url; simpl.
  change ("?" ++ q) with (String "?" q).
  rewrite break_at_app by exact H; reflexivity.
Qed.

(** Decimal digits of [String(n)]. *)
Definition is_digit (a : ascii) : bool :=
  let n := nat_of_ascii a in Nat.leb 48 n && Nat.leb n 57.

Lemma uint_no_char : forall c, is_digit c = false ->
  forall u, no_char c (NilEmpty.string_of_uint u) = true.
Proof.
  intros c Hc u; induction u; cbn [NilEmpty.string_of_uint no_char]; try reflexivity;
    rewrite IHu, andb_true_r;
    match goal with |- negb (Ascii.eqb ?d c) = true =>
      destruct (Ascii.eqb d c) eqn:E; [apply Ascii.eqb_eq in E; subst; discriminate|reflexivity]
    end.
Qed.

Lemma string_of_Z_no_char : forall c z,
  is_digit c = false -> Ascii.eqb "-" c = false -> no_char c (string_of_Z z) = true.
Proof.
  intros c z Hc Hm; unfold string_of_Z; destruct z as [|p|p];
    cbn [Z.to_int NilEmpty.string_of_int NilEmpty.string_of_uint no_char].
  - rewrite andb_true_r; destruct (Ascii.eqb "0" c) eqn:E; [|reflexivity].
    apply Ascii.eqb_eq in E; subst; discriminate.
  - apply uint_no_char; exact Hc.
  - rewrite Hm, uint_no_char by exact Hc; reflexivity.
Qed.

(** A string that reads back as itself in a query component. *)
Definition plain (s : string) : bool :=
  no_char "&" s && no_char "=" s && no_char "+" s && no_char "%" s.

Lemma plain_Z : forall z, plain (string_of_Z z) = true.
Proof. intro z; unfold plain; rewrite !string_of_Z_no_char by reflexivity; reflexivity. Qed.

Lemma form_decode_plain : forall s,
  no_char "+" s = true -> no_char "%" s = true -> form_decode s = s.
Proof.
  induction s as [|a s IH]; intros Hp Hq; [reflexivity|].
  simpl in Hp, Hq; apply andb_prop in Hp as [Hp1 Hp2]; apply andb_prop in Hq as [Hq1 Hq2].
  simpl; destruct (Ascii.eqb a "+"); [discriminate|].
  destruct (Ascii.eqb a "%"); [discriminate|].
  rewrite (IH Hp2 Hq2); reflexivity.
Qed.

Lemma parse_plain_pair : forall k v,
  plain k = true -> plain v = true -> parse_pair (k ++ "=" ++ v) = (k, v).
Proof.
  intros k v Hk Hv; unfold plain in Hk, Hv.
  apply andb_prop in Hk as [Hk Hk4]; apply andb_prop in Hk as [Hk Hk3];
    apply andb_prop in Hk as [Hk1 Hk2].
  apply andb_prop in Hv as [Hv Hv4]; apply andb_prop in Hv as [Hv Hv3];
    apply andb_prop in Hv as [Hv1 Hv2].
  unfold parse_pair; change ("=" ++ v) with (String "=" v).
  rewrite break_at_app by exact Hk2.
  rewrite !form_decode_plain by assumption; reflexivity.
Qed.

Lemma plain_no_amp : forall s, plain s = true -> no_char "&" s = true.
Proof.
  intros s H; unfold plain in H.
  apply andb_prop in H as [H _]; apply andb_prop in H as [H _]; apply andb_prop in H as [H _].
  exact H.
Qed.

Lemma parse_one : forall k v,
  plain k = true -> plain v = true -> parse_query (k ++ "=" ++ v) = [(k, v)].
Proof.
  intros k v Hk Hv.
  rewrite parse_query_nonempty by (destruct k; discriminate).
  rewrite split_on_none.
  - cbn [map]; rewrite parse_plain_pair by assumption; reflexivity.
  - rewrite !no_char_app, (plain_no_amp k Hk), (plain_no_amp v Hv); reflexivity.
Qed.

Lemma parse_two : forall k1 v1 k2 v2,
  plain k1 = true -> plain v1 = true -> plain k2 = true -> plain v2 = true ->
  parse_query ((k1 ++ "=" ++ v1) ++ "&" ++ k2 ++ "=" ++ v2) = [(k1, v1); (k2, v2)].
Proof.
  intros k1 v1 k2 v2 H1 H2 H3 H4.
  rewrite parse_query_nonempty by (rewrite str_app_assoc; destruct k1; discriminate).
  change ("&" ++ k2 ++ "=" ++ v2) with (String "&" (k2 ++ "=" ++ v2)).
  rewrite split_on_app
    by (rewrite !no_char_app, (plain_no_amp k1 H1), (plain_no_amp v1 H2); reflexivity).
  rewrite split_on_none
    by (rewrite !no_char_app, (plain_no_amp k2 H3), (plain_no_amp v2 H4); reflexivity).
  cbn [map]; rewrite !parse_plain_pair by assumption; reflexivity.
Qed.

(** ** What a call settles with once the server has answered *)

(** [response.data] for a status accepted by [validateStatus], else the
    axios error carrying the request and the response. *)
Definition answered (req : request) (r : http_response) : outcome value :=
  if validate_status (res_status r) then Resolved (VJs (res_data r))
  else Rejected (AxiosError (status_error_code (res_status r)) req (Some r)).

Lemma part001_answer : forall e w req lat r,
  w (to_wire req) = TRespond lat r ->
  (response <- send (Part001.api e) w req ;; Resolved (dot_data response)) = answered req r.
Proof.
  intros e w req lat r H; unfold send, answered; cbn [inst_config inst_response_interceptors Part001.api].
  rewrite H; unfold dispatch; cbn [Part001.api_config cfg_timeout]; simpl.
  destruct (validate_status (res_status r)); reflexivity.
Qed.

Lemma masked_status : forall s, masked_code (status_error_code s) = false.
Proof.
  intro s; unfold status_error_code.
  destruct (s / 100 - 4) as [|p|p]; [reflexivity| |reflexivity].
  destruct p; reflexivity.
Qed.

Lemma fallback_respond : forall cfg gm w req lat r,
  w (to_wire req) = TRespond lat r -> 0 < cfg_timeout cfg ->
  send (mkInstance cfg [fallback_interceptor gm]) w req
  = if lat <=? cfg_timeout cfg then answered req r else Rejected (timeout_error req).
Proof.
  intros cfg gm w req lat r H Ht; unfold send, answered; cbn [inst_config inst_response_interceptors].
  rewrite H; unfold dispatch.
  replace (0 <? cfg_timeout cfg) with true by (symmetry; apply Z.ltb_lt; exact Ht).
  destruct (lat <=? cfg_timeout cfg) eqn:E.
  - apply Z.leb_le in E; replace (cfg_timeout cfg <? lat) with false
      by (symmetry; apply Z.ltb_ge; exact E).
    simpl; destruct (validate_status (res_status r)); simpl; [reflexivity|].
    unfold is_masked; simpl; rewrite masked_status; reflexivity.
  - apply Z.leb_gt in E; replace (cfg_timeout cfg <? lat) with true
      by (symmetry; apply Z.ltb_lt; exact E).
    reflexivity.
Qed.

Ltac no_q :=
  rewrite ?no_char_app;
  repeat match goal with H : no_char ?c ?s = true |- context [no_char ?c ?s] => rewrite H end;
  reflexivity.

Definition ok_answer : world := fun _ => TRespond 40 (mkResponse 200 (JStr "ok")).

(** ** Identifier paths of part_001 *)





(** ** Query strings written into the URL (part_001) *)







(** X6: [fetchCrossSellProducts(productSku, limit)] sends a POST to
    [/recommendations/cross-sell] with the query [limit] (default 5) and
    the JSON body [{ product_sku }]. *)
Theorem cross_sell_request :
  forall e w (sku : string) l lat r,
  w (mkWire POST "/recommendations/cross-sell" [("limit", string_of_Z (default 5 l))]
       (JObj [("product_sku", JStr sku)])) = TRespond lat r ->
  Part001.fetchCrossSellProducts e w sku l
  = answered (mkRequest POST "/recommendations/cross-sell" [("limit", PNum (default 5 l))]
                (JObj [("product_sku", JStr sku)])) r.
Proof.
  intros e w sku l lat r Hw; unfold Part001.fetchCrossSellProducts.
  apply (part001_answer e w _ lat r).
  destruct (eff_params POST "/recommendations/cross-sell" [("limit", PNum (default 5 l))]
              (JObj [("product_sku", JStr sku)]) eq_refl ltac:(discriminate)) as [P Q].
  unfold to_wire; rewrite P, Q; exact Hw.
Qed.

Lemma cross_sell_request_witness :
  Part001.fetchCrossSellProducts sample_env ok_answer "SKU-1" None
  = answered (mkRequest POST "/recommendations/cross-sell" [("limit", PNum 5)]
                (JObj [("product_sku", JStr "SKU-1")])) (mkResponse 200 (JStr "ok")).
Proof.
  exact (cross_sell_request sample_env ok_answer "SKU-1" None 40 (mkResponse 200 (JStr "ok"))
           eq_refl).
Defined.

(** X7: [fetchPopularProducts(limit, category)] sends a GET to
    [/recommendations/popular] whose query is [limit] (default 10)
    followed by [category] exactly when a non-empty category is given. *)
Theorem popular_products_request :
  forall e w l c lat r,
  w (mkWire GET "/recommendations/popular"
       ([("limit", string_of_Z (default 10 l))]
        ++ match c with Some (String a s) => [("category", String a s)] | _ => [] end)%list
       JUndefined) = TRespond lat r ->
  Part001.fetchPopularProducts e w l c = answered (Part001.popular_request l c) r.
Proof.
  intros e w l c lat r Hw; unfold Part001.fetchPopularProducts.
  apply (part001_answer e w _ lat r).
  destruct (eff_search GET "/recommendations/popular" (Part001.popular_search l c)
              JUndefined eq_refl) as [P _].
  assert (P' : eff_path (Part001.popular_request l c) = "/recommendations/popular") by exact P.
  unfold to_wire; rewrite P', popular_eff; exact Hw.
Qed.

Lemma popular_products_request_witness :
  Part001.fetchPopularProducts sample_env ok_answer (Some 5) (Some "books")
  = answered (Part001.popular_request (Some 5) (Some "books")) (mkResponse 200 (JStr "ok")).
Proof.
  exact (popular_products_request sample_env ok_answer (Some 5) (Some "books") 40
           (mkResponse 200 (JStr "ok")) eq_refl).
Defined.

(** ** [fetchRecommendations] and [checkHealth] in the three variants *)

(** The request [api.post('/recommendations', body)] builds. *)
Definition recommendations_request (cid : string) (alg : option string) (lim : option Z)
  (inc : option bool) : request :=
  mkRequest POST "/recommendations" [] (recommendations_body cid alg lim inc).

Lemma recommendations_wire : forall cid alg lim inc,
  to_wire (recommendations_request cid alg lim inc)
  = mkWire POST "/recommendations" [] (recommendations_body cid alg lim inc).
Proof. reflexivity. Qed.

(** X8: the three variants send the same [fetchRecommendations] request,
    a POST to [/recommendations] whose JSON body carries all four fields
    (defaults ['hybrid'], 10, [false]). part_001 settles with the answer
    whatever its latency; part_000 and part_002 settle the same way when
    it comes within 10000 ms and reject with the timeout error otherwise. *)
Theorem recommendations_variants_agree :
  forall e w cid alg lim inc lat r,
  w (mkWire POST "/recommendations" [] (recommendations_body cid alg lim inc)) = TRespond lat r ->
  Part001.fetchRecommendations e w cid alg lim inc
    = answered (recommendations_request cid alg lim inc) r
  /\ Part000.fetchRecommendations e w cid alg lim inc
     = (if lat <=? 10000 then answered (recommendations_request cid alg lim inc) r
        else Rejected (timeout_error (recommendations_request cid alg lim inc)))
  /\ Part002.fetchRecommendations e w cid alg lim inc
     = Part000.fetchRecommendations e w cid alg lim inc.
Proof.
  intros e w cid alg lim inc lat r Hw.
  rewrite <- recommendations_wire in Hw.
  unfold Part000.fetchRecommendations, Part001.fetchRecommendations,
    Part002.fetchRecommendations, post, Part000.api, Part002.api.
  split; [exact (part001_answer e w _ lat r Hw)|].
  rewrite !(fallback_respond _ _ w _ lat r Hw) by reflexivity.
  split; reflexivity.
Qed.

Lemma recommendations_variants_agree_witness :
  Part000.fetchRecommendations sample_env ok_answer "C42" None (Some 6) (Some true)
  = Resolved (VJs (JStr "ok"))
  /\ Part001.fetchRecommendations sample_env ok_answer "C42" None (Some 6) (Some true)
     = Resolved (VJs (JStr "ok")).
Proof.
  destruct (recommendations_variants_agree sample_env ok_answer "C42" None (Some 6) (Some true) 40
              (mkResponse 200 (JStr "ok")) eq_refl) as [H1 [H0 _]].
  rewrite H0, H1; split; reflexivity.
Defined.

(** X9: [checkHealth] sends [GET /health] with an empty query in the three
    variants; part_001 settles with the answer whatever its latency, part_000
    and part_002 the same way within 10000 ms and with the timeout error
    after. *)
Theorem check_health_variants_agree :
  forall e w lat r,
  w (mkWire GET "/health" [] JUndefined) = TRespond lat r ->
  Part001.checkHealth e w = answered (mkRequest GET "/health" [] JUndefined) r
  /\ Part000.checkHealth e w
     = (if lat <=? 10000 then answered (mkRequest GET "/health" [] JUndefined) r
        else Rejected (timeout_error (mkRequest GET "/health" [] JUndefined)))
  /\ Part002.checkHealth e w = Part000.checkHealth e w.
Proof.
  intros e w lat r Hw.
  change (mkWire GET "/health" [] JUndefined)
    with (to_wire (mkRequest GET "/health" [] JUndefined)) in Hw.
  unfold Part000.checkHealth, Part001.checkHealth, Part002.checkHealth, get,
    Part000.api, Part002.api.
  split; [exact (part001_answer e w _ lat r Hw)|].
  rewrite !(fallback_respond _ _ w _ lat r Hw) by reflexivity.
  split; reflexivity.
Qed.

Lemma check_health_variants_agree_witness :
  Part000.checkHealth sample_env slow_ok
  = Rejected (timeout_error (mkRequest GET "/health" [] JUndefined))
  /\ Part001.checkHealth sample_env slow_ok = Resolved (VJs (JArr [])).
Proof.
  destruct (check_health_variants_agree sample_env slow_ok 15000 (mkResponse 200 (JArr [])) eq_refl)
    as [H1 [H0 _]].
  rewrite H0, H1; split; reflexivity.
Defined.

(** X10: when the connection is refused or the network is down, the
    interceptor variants (part_000, part_002) resolve [fetchRecommendations]
    (whatever its arguments, which travel in the body) and [checkHealth]
    with an empty array, while part_001 rejects both with the axios error. *)
Theorem unreachable_backend_empty :
  forall e w c cid alg lim inc,
  masked_code c = true ->
  w (mkWire POST "/recommendations" [] (recommendations_body cid alg lim inc)) = TFail c ->
  w (mkWire GET "/health" [] JUndefined) = TFail c ->
  Part000.fetchRecommendations e w cid alg lim inc = Resolved (VJs (JArr []))
  /\ Part002.fetchRecommendations e w cid alg lim inc = Resolved (VJs (JArr []))
  /\ Part001.fetchRecommendations e w cid alg lim inc
     = Rejected (AxiosError c (recommendations_request cid alg lim inc) None)
  /\ Part000.checkHealth e w = Resolved (VJs (JArr []))
  /\ Part002.checkHealth e w = Resolved (VJs (JArr []))
  /\ Part001.checkHealth e w = Rejected (AxiosError c (mkRequest GET "/health" [] JUndefined) None).
Proof.
  intros e w c cid alg lim inc Hc Hr Hh.
  rewrite <- recommendations_wire in Hr.
  change (mkWire GET "/health" [] JUndefined)
    with (to_wire (mkRequest GET "/health" [] JUndefined)) in Hh.
  unfold Part000.fetchRecommendations, Part001.fetchRecommendations,
    Part002.fetchRecommendations, Part000.checkHealth, Part001.checkHealth,
    Part002.checkHealth, post, get, Part000.api, Part002.api.
  change (mkRequest POST "/recommendations" [] (recommendations_body cid alg lim inc))
    with (recommendations_request cid alg lim inc).
  rewrite (fallback_masked (Part000.api_config e) (Part000.getMockData e) w _ c Hc Hr),
    (fallback_masked (Part002.api_config e) Part002.getMockData w _ c Hc Hr),
    (fallback_masked (Part000.api_config e) (Part000.getMockData e) w _ c Hc Hh),
    (fallback_masked (Part002.api_config e) Part002.getMockData w _ c Hc Hh).
  unfold send; cbn [Part001.api inst_config inst_response_interceptors].
  rewrite Hr, Hh.
  repeat split; reflexivity.
Qed.

Lemma unreachable_backend_empty_witness :
  Part000.fetchRecommendations sample_env refused "dashboard-summary" None None None
  = Resolved (VJs (JArr []))
  /\ Part002.checkHealth sample_env refused = Resolved (VJs (JArr [])).
Proof.
  destruct (unreachable_backend_empty sample_env refused (Some "ECONNREFUSED") "dashboard-summary"
              None None None eq_refl eq_refl eq_refl) as [H0 [_ [_ [_ [H2 _]]]]].
  split; [exact H0|exact H2].
Defined.

(** ** The generated revenue mock of part_000 *)

Lemma all_some_some : forall A (xs : list (option A)),
  (forall x, In x xs -> x <> None) -> exists ys, Part000.all_some xs = Some ys /\ xs = map Some ys.
Proof.
  intros A xs; induction xs as [|x xs IH]; intro H; [exists []; split; reflexivity|].
  destruct x as [y|]; [|exfalso; exact (H None (or_introl eq_refl) eq_refl)].
  destruct IH as [ys [E1 E2]]; [intros x Hx; apply H; right; exact Hx|].
  exists (y :: ys); simpl; rewrite E1, E2; split; reflexivity.
Qed.

Lemma toISOString_some : forall t, exists s, toISOString (mkDate (Some t)) = Some s.
Proof.
  intro t; unfold toISOString; cbv zeta; cbn [date_tv].
  destruct (civil_from_days (t / ms_per_day)) as [[y m] dd]; eexists; reflexivity.
Qed.

Lemma revenue_day_spec : forall e i,
  (i < 30)%nat ->
  - max_time_value + 30 * ms_per_day <= env_now e <= max_time_value ->
  (0 <= env_random e (2 * i) /\ env_random e (2 * i) < 1)%Q ->
  (0 <= env_random e (2 * i + 1) /\ env_random e (2 * i + 1) < 1)%Q ->
  exists iso rev ord,
    Part000.revenue_day e i
      = Some (JObj [("date", JStr iso); ("revenue", JNum rev); ("orders", num_Z ord)])
    /\ toISOString (mkDate (Some (env_now e - (30 - Z.of_nat i) * ms_per_day))) = Some iso
    /\ (inject_Z (5000 + 50 * Z.of_nat i) <= rev /\ rev <= inject_Z (8000 + 50 * Z.of_nat i))%Q
    /\ 50 + 2 * Z.of_nat i <= ord <= 80 + 2 * Z.of_nat i.
Proof.
  intros e i Hi Hn [R1 R2] [S1 S2].
  assert (Ht : time_clip (env_now e - (30 - Z.of_nat i) * ms_per_day)
               = Some (env_now e - (30 - Z.of_nat i) * ms_per_day)).
  { unfold time_clip.
    replace (Z.abs (env_now e - (30 - Z.of_nat i) * ms_per_day) <=? max_time_value) with true;
      [reflexivity|].
    symmetry; apply Z.leb_le, Z.abs_le; unfold max_time_value, ms_per_day in *; lia. }
  destruct (toISOString_some (env_now e - (30 - Z.of_nat i) * ms_per_day)) as [iso Hiso].
  unfold Part000.revenue_day; cbv zeta; rewrite Ht, Hiso.
  eexists iso, _, _; split; [reflexivity|]; split; [reflexivity|].
  rewrite !inject_Z_plus, !inject_Z_mult.
  set (q := inject_Z (Z.of_nat i)).
  split; [unfold inject_Z; split; lra|].
  match goal with |- context [Qfloor ?X] => set (x := X) end.
  split.
  - apply Z.le_trans with (Qfloor (inject_Z (50 + 2 * Z.of_nat i))); [rewrite Qfloor_Z; lia|].
    apply Qfloor_resp_le; unfold x; rewrite inject_Z_plus, inject_Z_mult; fold q.
    unfold inject_Z; lra.
  - assert (Hlt : (inject_Z (Qfloor x) < inject_Z (80 + 2 * Z.of_nat i))%Q).
    { assert (Hx : (x < inject_Z (80 + 2 * Z.of_nat i))%Q).
      { unfold x; rewrite inject_Z_plus, inject_Z_mult; fold q; unfold inject_Z; lra. }
      exact (Qle_lt_trans _ _ _ (Qfloor_le x) Hx). }
    rewrite <- Zlt_Qlt in Hlt; lia.
Qed.



(** ** Callers *)

(** X12: the list components pass [undefined] for the filter value ['all']
    ([CustomerList] to [fetchCustomers(50, 0, ...)], [ProductGrid] to
    [fetchProducts(50, 0, ...)]); in every variant the request's query is
    then exactly [limit=50&offset=0], followed by the filter only when the
    selected value is neither ['all'] nor empty. *)
Theorem list_filter_all_omitted :
  forall s : string,
  let extra k := if String.eqb s "all" || String.eqb s "" then [] else [(k, s)] in
  eff_query (Part000.customers_request (Some 50) (Some 0) (Callers.all_to_undefined s))
    = ([("limit", "50"); ("offset", "0")] ++ extra "segment")%list
  /\ eff_query (Part001.customers_request (Some 50) (Some 0) (Callers.all_to_undefined s))
     = ([("limit", "50"); ("offset", "0")] ++ extra "segment")%list
  /\ eff_query (Part002.customers_request (Some 50) (Some 0) (Callers.all_to_undefined s))
     = ([("limit", "50"); ("offset", "0")] ++ extra "segment")%list
  /\ eff_query (Part000.products_request (Some 50) (Some 0) (Callers.all_to_undefined s))
     = ([("limit", "50"); ("offset", "0")] ++ extra "category")%list
  /\ eff_query (Part001.products_request (Some 50) (Some 0) (Callers.all_to_undefined s))
     = ([("limit", "50"); ("offset", "0")] ++ extra "category")%list
  /\ eff_query (Part002.products_request (Some 50) (Some 0) (Callers.all_to_undefined s))
     = ([("limit", "50"); ("offset", "0")] ++ extra "category")%list.
Proof.
  intros s extra.
  destruct (customers_eff (Some 50) (Some 0) (Callers.all_to_undefined s)) as [C0 [C1 C2]].
  destruct (products_eff (Some 50) (Some 0) (Callers.all_to_undefined s))
    as [_ [P0 [_ [P1 [_ P2]]]]].
  rewrite C1, C2, P1, P2, C0, P0.
  assert (Hm : forall k, match Callers.all_to_undefined s with
                         | Some (String a s') => [(k, String a s')] | _ => [] end = extra k).
  { intro k; unfold extra, Callers.all_to_undefined.
    destruct (String.eqb s "all") eqn:E; [reflexivity|].
    destruct s; reflexivity. }
  rewrite !Hm; repeat split; reflexivity.
Qed.

(** ** Further list and fixed-path requests *)

(** X13: in the three variants [fetchCustomers(limit, offset, segment)]
    sends a GET to [/customers] with an empty body whose query is [limit]
    and [offset] (defaults 50 and 0) followed by [segment] exactly when a
    non-empty segment string is given. *)
Theorem customers_request_wire :
  forall l o c,
  let q := ([("limit", string_of_Z (default 50 l)); ("offset", string_of_Z (default 0 o))]
            ++ match c with Some (String a s) => [("segment", String a s)] | _ => [] end)%list in
  to_wire (Part000.customers_request l o c) = mkWire GET "/customers" q JUndefined
  /\ to_wire (Part001.customers_request l o c) = mkWire GET "/customers" q JUndefined
  /\ to_wire (Part002.customers_request l o c) = mkWire GET "/customers" q JUndefined.
Proof.
  intros l o c q.
  destruct (paged_params_query "/customers" "segment" l o 50 0 c eq_refl) as [P0 Q0].
  destruct (paged_search_query "/customers" "segment" l o 50 0 c eq_refl) as [P1 Q1].
  assert (P1' : eff_path (Part001.customers_request l o c) = "/customers") by exact P1.
  assert (Q1' : eff_query (Part001.customers_request l o c) = q) by exact Q1.
  assert (P2' : eff_path (Part002.customers_request l o c) = "/customers") by exact P1.
  assert (Q2' : eff_query (Part002.customers_request l o c) = q) by exact Q1.
  assert (P0' : eff_path (Part000.customers_request l o c) = "/customers") by exact P0.
  assert (Q0' : eff_query (Part000.customers_request l o c) = q) by exact Q0.
  unfold to_wire; rewrite P0', Q0', P1', Q1', P2', Q2'.
  repeat split; reflexivity.
Qed.

(** X14: part_001's [fetchDashboardSummary], [fetchCustomerSegments] and
    [fetchBasketAnalysis] send a GET with an empty query to their fixed
    path and settle with the server's answer whatever its latency: no
    timeout applies. *)
Theorem part001_fixed_paths :
  forall e w lat r,
  (w (mkWire GET "/analytics/dashboard-summary" [] JUndefined) = TRespond lat r ->
   Part001.fetchDashboardSummary e w
   = answered (mkRequest GET "/analytics/dashboard-summary" [] JUndefined) r)
  /\ (w (mkWire GET "/analytics/customer-segments" [] JUndefined) = TRespond lat r ->
      Part001.fetchCustomerSegments e w
      = answered (mkRequest GET "/analytics/customer-segments" [] JUndefined) r)
  /\ (w (mkWire GET "/analytics/basket-analysis" [] JUndefined) = TRespond lat r ->
      Part001.fetchBasketAnalysis e w
      = answered (mkRequest GET "/analytics/basket-analysis" [] JUndefined) r).
Proof.
  intros e w lat r.
  unfold Part001.fetchDashboardSummary, Part001.fetchCustomerSegments,
    Part001.fetchBasketAnalysis, get.
  repeat split; intro Hw; apply (part001_answer e w _ lat r); exact Hw.
Qed.

Lemma part001_fixed_paths_witness :
  Part001.fetchBasketAnalysis sample_env slow_ok = Resolved (VJs (JArr [])).
Proof.
  destruct (part001_fixed_paths sample_env slow_ok 15000 (mkResponse 200 (JArr []))) as [_ [_ H]].
  rewrite (H eq_refl); reflexivity.
Defined.
